(** * Signed-request middleware: a shallow embedding of
      [falcon_signed_requests/middleware.py]

    The class [AuthenticRequestMiddleware] is embedded method by method.
    Python values keep their run-time types where the code depends on
    them: a header is a [str] or [None], the request body is [bytes],
    [base64.b64encode] yields [bytes] and [hexdigest] yields [str].
    Clock readings and timestamps are [float]s: each is held as the
    rational it stands for, and their subtraction rounds to the nearest
    double. Exceptions, the attributes written on the request object, the
    replay store and the calls made to the outside world are threaded
    through a small state-and-error monad.

    What the middleware imports is kept abstract: the keyed hash, the
    identifier codec of [time_uuid], the store behind [redis] and the
    media handler of the framework are parameters of the model. The
    theorems hold for all of them; the sample instances (HMAC over SHA-256
    and SHA-1, version-1 UUIDs, a store with expiry) serve to run the model
    on the requests of the test suite. *)

From Stdlib Require Import ZArith NArith QArith Qround Qpower Lqa List Ascii String Bool Lia.
From stdpp Require Import gmap strings list fin_maps.

Open Scope string_scope.

(** ** Bytes and text *)

Abbreviation bytes := (list Byte.byte).

#[global] Instance byte_eq_decision : EqDecision Byte.byte := Byte.byte_eq_dec.

Definition chr (n : N) : Byte.byte := byte_of_ascii (ascii_of_N n).
Definition ord (b : Byte.byte) : N := Byte.to_N b.

(** [str.encode("utf-8")] for text whose code points are below 256, which
    is what a WSGI header or a configuration literal holds: one byte for
    ASCII, two bytes otherwise. *)
Definition utf8_char (c : ascii) : bytes :=
  let n := N_of_ascii c in
  if (n <? 128)%N then [chr n]
  else [chr (192 + n / 64); chr (128 + n mod 64)].

Fixpoint encode_utf8 (s : string) : bytes :=
  match s with
  | EmptyString => []
  | String c s' => utf8_char c ++ encode_utf8 s'
  end.

Definition is_ascii_char (c : ascii) : bool := (N_of_ascii c <? 128)%N.

Fixpoint is_ascii (s : string) : bool :=
  match s with
  | EmptyString => true
  | String c s' => is_ascii_char c && is_ascii s'
  end.

(** [hexdigest]: two lowercase hexadecimal digits per byte. *)
Definition hex_digit (n : N) : ascii :=
  if (n <? 10)%N then ascii_of_N (48 + n) else ascii_of_N (87 + n).

Fixpoint hexlify (bs : bytes) : string :=
  match bs with
  | [] => EmptyString
  | b :: bs' =>
      String (hex_digit (ord b / 16)) (String (hex_digit (ord b mod 16)) (hexlify bs'))
  end.

(** [base64.b64encode]: standard alphabet, [=] padding, result is [bytes]. *)
Definition b64_char (n : N) : Byte.byte :=
  if (n <? 26)%N then chr (65 + n)
  else if (n <? 52)%N then chr (71 + n)
  else if (n <? 62)%N then chr (n - 4)
  else if (n =? 62)%N then chr 43
  else chr 47.

Definition b64_pad : Byte.byte := chr 61.

Fixpoint b64encode (bs : bytes) : bytes :=
  match bs with
  | [] => []
  | [a] =>
      let n := (ord a * 65536)%N in
      [b64_char (n / 262144); b64_char (n / 4096 mod 64); b64_pad; b64_pad]
  | [a; b] =>
      let n := (ord a * 65536 + ord b * 256)%N in
      [b64_char (n / 262144); b64_char (n / 4096 mod 64);
       b64_char (n / 64 mod 64); b64_pad]
  | a :: b :: c :: rest =>
      let n := (ord a * 65536 + ord b * 256 + ord c)%N in
      [b64_char (n / 262144); b64_char (n / 4096 mod 64);
       b64_char (n / 64 mod 64); b64_char (n mod 64)] ++ b64encode rest
  end.

(** The values that reach [hmac.compare_digest] in this program. *)
Inductive pyval :=
  | PyNone
  | PyStr (s : string)
  | PyBytes (b : bytes).

Definition of_header (h : option string) : pyval :=
  match h with
  | Some s => PyStr s
  | None => PyNone
  end.

(** ** Exceptions *)

Inductive exn :=
  | ValueError
  | TypeError
  | AttributeError
  | AssertionError
  | HTTPForbidden
  | HTTPUnsupportedMediaType.

Inductive res (A : Type) :=
  | Ok (a : A)
  | Raise (e : exn).
Arguments Ok {A} a.
Arguments Raise {A} e.

(** [hmac.compare_digest(a, b)]: both arguments [bytes], or both ASCII-only
    [str]; any other combination is a [TypeError]. *)
Definition compare_digest (a b : pyval) : res bool :=
  match a, b with
  | PyBytes x, PyBytes y => Ok (bool_decide (x = y))
  | PyStr x, PyStr y =>
      if is_ascii x && is_ascii y then Ok (bool_decide (x = y))
      else Raise TypeError
  | _, _ => Raise TypeError
  end.

(** ** Floating point

    [time()] and [get_timestamp()] return a Python [float], an IEEE 754
    binary64. A finite double is held as the rational it stands for; the
    result of an operation is the exact result rounded to the nearest
    double, ties going to the even significand, and to an infinity from
    [2 ^ 1024 - 2 ^ 970] on. *)

Inductive float :=
  | Finite (q : Q)
  | Infinity (negative : bool).

Definition Qltb (a b : Q) : bool := negb (Qle_bool b a).

(** The floor of the binary logarithm of a positive rational. *)
Definition ilog2 (x : Q) : Z :=
  let k := (Z.log2 (Qnum x) - Z.log2 (Zpos (Qden x)))%Z in
  if Qle_bool (2 ^ k) x then k else (k - 1)%Z.

(** The nearest integer, the even one of two that are equally near. *)
Definition round_half_even (y : Q) : Z :=
  let f := Qfloor y in
  match (y - inject_Z f ?= 1 # 2)%Q with
  | Lt => f
  | Gt => (f + 1)%Z
  | Eq => if Z.even f then f else (f + 1)%Z
  end.

(** The double nearest to a positive [a]: 53 significant bits, the unit in
    the last place no smaller than [2 ^ -1074]; [None] on overflow. *)
Definition round_magnitude (a : Q) : option Q :=
  let e := Z.max (ilog2 a - 52) (-1074) in
  let r := (inject_Z (round_half_even (a / 2 ^ e)) * 2 ^ e)%Q in
  if Qle_bool (2 ^ 1024) r then None else Some (Qred r).

Definition float_of_Q (x : Q) : float :=
  match (x ?= 0)%Q with
  | Eq => Finite 0
  | Gt =>
      match round_magnitude x with
      | Some r => Finite r
      | None => Infinity false
      end
  | Lt =>
      match round_magnitude (- x) with
      | Some r => Finite (- r)
      | None => Infinity true
      end
  end.

(** [a - b] on two finite doubles. *)
Definition float_sub (a b : Q) : float := float_of_Q (a - b).

(** [x < n] for a float [x] and an [int] [n]: Python compares the two
    exactly, without turning [n] into a float. *)
Definition float_lt_int (x : float) (n : Z) : bool :=
  match x with
  | Finite q => Qltb q (inject_Z n)
  | Infinity negative => negative
  end.

(** The values a double can hold. *)
Definition is_double (x : Q) : Prop :=
  exists m e : Z,
    (Z.abs m < 2 ^ 53)%Z /\ (-1074 <= e <= 971)%Z /\ (x == inject_Z m * 2 ^ e)%Q.

(** ** The replay store

    The middleware only requires an object with [get(key)] and
    [set(key, value, ex=seconds)].  Time is the reading of the clock, in
    seconds: the value of the double [time()] returns. *)

Class ReplayStore (S : Type) := {
  redis_get : S -> Q -> string -> option string;
  redis_set : S -> Q -> string -> string -> Z -> S
}.

(** A store keeps a key it was given for the whole of its lifetime [ex],
    and writing one key does not disturb another. *)
Class ReplayStoreLaws (S : Type) `{ReplayStore S} := {
  get_set_same : forall s t k v ex t',
    (t <= t')%Q -> (t' < t + inject_Z ex)%Q ->
    redis_get (redis_set s t k v ex) t' k = Some v;
  get_set_other : forall s t k v ex t' k',
    k <> k' ->
    redis_get (redis_set s t k v ex) t' k' = redis_get s t' k'
}.

(** [FakeRedis] of [tests/conf.py]: a dictionary; [ex] is ignored. *)
Definition FakeRedis := gmap string string.

#[global] Instance FakeRedis_store : ReplayStore FakeRedis := {|
  redis_get s _ k := s !! k;
  redis_set s _ k v _ := <[k := v]> s
|}.

(** A store with expiry, as the Redis commands [GET] and [SET key value EX
    seconds] behave: an entry is visible up to and including its deadline,
    and gone once the clock is past it. *)
Definition TtlStore := gmap string (string * Q).

#[global] Instance TtlStore_store : ReplayStore TtlStore := {|
  redis_get s now k :=
    match s !! k with
    | Some (v, deadline) => if Qle_bool now deadline then Some v else None
    | None => None
    end;
  redis_set s now k v ex := <[k := (v, (now + inject_Z ex)%Q)]> s
|}.

(** ** Configuration: the [config] dictionary and [__init__] *)

Record Config := {
  cfg_secret : option string;
  cfg_header : option string;
  cfg_expiry : option Z;
  cfg_digest : option string;
  cfg_hash : option string;
  cfg_nonce_prefix : option string;
  cfg_is_uuid_required : option bool;
  cfg_debug_bypass : option bool
}.

(** The attributes of the middleware object other than [redis], whose
    contents change from request to request and live in the state below. *)
Record Middleware := {
  config : Config;
  expiry : Z;
  digest : string;
  hash : string;
  is_uuid_required : bool;
  is_debug : bool;
  header_name : string
}.

(** [__init__] (lines 79-87). *)
Definition init (c : Config) : Middleware := {|
  config := c;
  expiry := default 300%Z (cfg_expiry c);
  digest := default "base64" (cfg_digest c);
  hash := default "sha256" (cfg_hash c);
  is_uuid_required := default true (cfg_is_uuid_required c);
  is_debug := default false (cfg_debug_bypass c);
  header_name := default "auth" (cfg_header c)
|}.

Inductive digestmod := sha256 | sha1.

(** What the middleware asks of the outside world, in call order. *)
Inductive event :=
  | ReadBody
  | RedisGet (key : string)
  | RedisSet (key value : string) (ex : Z)
  | FindHandler
  | Deserialize.

(** Values stored in [req.context]. *)
Inductive ctxval :=
  | CtxId (request_id : option string)
  | CtxBool (b : bool).

Section Model.
Context {Media : Type}.
Context {S : Type} `{ReplayStore S}.

(** [hmac.new(key, msg, digestmod).digest()], from the standard library. *)
Variable hmac_digest : digestmod -> bytes -> bytes -> bytes.

(** [TimeUUID(request_id).get_timestamp()], from the [time_uuid] package:
    seconds since the epoch, the value of the double it returns, or [None]
    when the constructor rejects the text with a [ValueError]. *)
Variable get_timestamp : string -> option Q.

(** The request as the middleware sees it. [media_handler] is the result
    of [req.options.media_handlers.find_by_media_type(...)]: [None] when
    the lookup raises, otherwise the handler's [deserialize], which
    answers [None] when it raises. *)
Record Request := {
  method : string;
  get_header : string -> option string;
  bounded_stream : bytes;
  media_handler : option (bytes -> option Media)
}.

(** The replay store, the attributes written on the request and the calls
    made so far. *)
Record world := {
  redis : option S;
  req_context : gmap string ctxval;
  req_is_authentic : option bool;
  req_body : option bytes;
  req_media : option Media;
  trace : list event
}.

Definition M (A : Type) : Type := world -> res A * world.

#[local] Instance M_ret : MRet M := fun A a w => (Ok a, w).
#[local] Instance M_bind : MBind M := fun A B f m w =>
  match m w with
  | (Ok a, w') => f a w'
  | (Raise e, w') => (Raise e, w')
  end.

Definition raise {A} (e : exn) : M A := fun w => (Raise e, w).
Definition get_world : M world := fun w => (Ok w, w).

Definition emit (e : event) : M unit := fun w =>
  (Ok tt, {| redis := redis w; req_context := req_context w;
             req_is_authentic := req_is_authentic w; req_body := req_body w;
             req_media := req_media w; trace := trace w ++ [e] |}).

Definition put_redis (s : S) : M unit := fun w =>
  (Ok tt, {| redis := Some s; req_context := req_context w;
             req_is_authentic := req_is_authentic w; req_body := req_body w;
             req_media := req_media w; trace := trace w |}).

Definition set_context (k : string) (v : ctxval) : M unit := fun w =>
  (Ok tt, {| redis := redis w; req_context := <[k := v]> (req_context w);
             req_is_authentic := req_is_authentic w; req_body := req_body w;
             req_media := req_media w; trace := trace w |}).

Definition set_is_authentic (b : bool) : M unit := fun w =>
  (Ok tt, {| redis := redis w; req_context := req_context w;
             req_is_authentic := Some b; req_body := req_body w;
             req_media := req_media w; trace := trace w |}).

Definition set_body (b : bytes) : M unit := fun w =>
  (Ok tt, {| redis := redis w; req_context := req_context w;
             req_is_authentic := req_is_authentic w; req_body := Some b;
             req_media := req_media w; trace := trace w |}).

Definition set_media (m : Media) : M unit := fun w =>
  (Ok tt, {| redis := redis w; req_context := req_context w;
             req_is_authentic := req_is_authentic w; req_body := req_body w;
             req_media := Some m; trace := trace w |}).

(** [try: c  except Exception: pass] *)
Definition try_pass (c : M unit) : M unit := fun w =>
  match c w with
  | (Ok tt, w') => (Ok tt, w')
  | (Raise _, w') => (Ok tt, w')
  end.

Variable self : Middleware.

(** [time()] at this request, the value of the double it returns, and the
    text [str(uuid1())] would produce. *)
Variable now : Q.
Variable uuid1 : string.

(** [_get_redis_key] (lines 89-90):
    [".".join([self.config.get("nonce_prefix", "nonce"), request_id])];
    joining [None] is a [TypeError]. *)
Definition redis_key (request_id : string) : string :=
  default "nonce" (cfg_nonce_prefix (config self)) ++ "." ++ request_id.

Definition _get_redis_key (request_id : option string) : M string :=
  match request_id with
  | Some rid => mret (redis_key rid)
  | None => raise TypeError
  end.

(** [_has_unused_id] (lines 92-95). *)
Definition _has_unused_id (request_id : option string) : M bool :=
  w ← get_world;
  match redis w with
  | None => raise AssertionError
  | Some s =>
      key ← _get_redis_key request_id;
      emit (RedisGet key);;
      mret (bool_decide (redis_get s now key = None))
  end.

(** [_set_id_as_used] (lines 97-103). *)
Definition _set_id_as_used (request_id : option string) : M unit :=
  w ← get_world;
  match redis w with
  | None => raise AssertionError
  | Some s =>
      key ← _get_redis_key request_id;
      match request_id with
      | Some rid =>
          emit (RedisSet key rid (expiry self * 2));;
          put_redis (redis_set s now key rid (expiry self * 2))
      | None => raise TypeError
      end
  end.

(** [has_valid_timestamp] (line 110): [time() - timestamp < self.expiry],
    a subtraction of two doubles compared with an [int]. *)
Definition has_valid_timestamp (timestamp : Q) : bool :=
  float_lt_int (float_sub now timestamp) (expiry self).

(** [_has_valid_request_id] (lines 105-117). The store is asked also when
    the timestamp has expired: both operands are computed before [and]. *)
Definition _has_valid_request_id (request_id : option string) : M bool :=
  match request_id with
  | None => raise TypeError
  | Some rid =>
      match get_timestamp rid with
      | None => raise ValueError
      | Some timestamp =>
          let has_valid_timestamp := has_valid_timestamp timestamp in
          is_unused ← _has_unused_id request_id;
          mret (has_valid_timestamp && is_unused)
      end
  end.

(** [_has_valid_signature] (lines 119-149): first the signature the
    middleware generates (lines 133-144), then the whole method. *)
Definition generated_signature (payload : bytes) (secret : string) : pyval :=
  let mac :=
    hmac_digest (if bool_decide (hash self = "sha256") then sha256 else sha1)
                (encode_utf8 secret) payload in
  if bool_decide (digest self = "base64") then PyBytes (b64encode mac)
  else PyStr (hexlify mac).

Definition _has_valid_signature
    (body : bytes) (request_id signature : option string) : M bool :=
  payload ←
    (if is_uuid_required self then
       match request_id with
       | Some rid => mret (encode_utf8 rid ++ body)%list
       | None => raise AttributeError
       end
     else mret body);
  match cfg_secret (config self) with
  | None => raise ValueError
  | Some secret =>
      match compare_digest (generated_signature payload secret)
                           (of_header signature) with
      | Ok b => mret b
      | Raise e => raise e
      end
  end.

Definition signature_header : string := "x-" ++ header_name self ++ "-signature".
Definition uuid_header : string := "x-" ++ header_name self ++ "-uuid".

(** [process_resource] (lines 151-209). A handler that raises inside the
    [try] is written as [ValueError]; any [Exception] is caught alike. *)
Definition process_resource (req : Request) : M unit :=
  let signature := get_header req signature_header in
  let request_id := get_header req uuid_header in
  if negb (bool_decide (method req = "POST")) && bool_decide (signature <> None)
  then mret tt
  else
    emit ReadBody;;
    let body := bounded_stream req in
    has_matching_signature ← _has_valid_signature body request_id signature;
    is_authenticated ←
      (if has_matching_signature : bool then
         if is_uuid_required self then _has_valid_request_id request_id
         else mret true
       else mret false);
    (if is_authenticated && is_uuid_required self
     then _set_id_as_used request_id else mret tt);;
    let request_id' :=
      if bool_decide (request_id = None) && is_uuid_required self
      then Some uuid1 else request_id in
    set_context (header_name self ++ "-uuid") (CtxId request_id');;
    set_context (header_name self ++ "-authenticated") (CtxBool is_authenticated);;
    set_is_authentic is_authenticated;;
    if is_authenticated : bool then
      set_body body;;
      emit FindHandler;;
      match media_handler req with
      | None => raise HTTPUnsupportedMediaType
      | Some deserialize =>
          try_pass
            (emit Deserialize;;
             match deserialize body with
             | Some media => set_media media
             | None => raise ValueError
             end)
      end
    else raise HTTPForbidden.

(** The state in which a request arrives: nothing written on it yet. *)
Definition fresh_world (store : option S) : world :=
  {| redis := store; req_context := ∅; req_is_authentic := None;
     req_body := None; req_media := None; trace := [] |}.

Definition handle (store : option S) (req : Request) : res unit * world :=
  process_resource req (fresh_world store).

(** The verdict left on the request. *)
Definition authenticated (w : world) : bool :=
  bool_decide (req_is_authentic w = Some true).

(** The outcome of the signature check on a request; the check neither
    reads nor writes the state. *)
Definition signature_check (req : Request) : res bool :=
  fst (_has_valid_signature (bounded_stream req) (get_header req uuid_header)
         (get_header req signature_header) (fresh_world None)).

(** The signature the reference construction puts on a body, with the
    identifier in front when there is one to sign. *)
Definition reference_signature
    (secret : string) (request_id : option string) (body : bytes) : pyval :=
  generated_signature
    (match request_id with
     | Some rid => encode_utf8 rid ++ body
     | None => body
     end)%list secret.

(** The three ways in which the checks turn a request down. *)
Inductive rejected (store : option S) (req : Request) : Prop :=
  | bad_signature :
      signature_check req = Ok false -> rejected store req
  | expired_identifier s rid timestamp :
      signature_check req = Ok true -> is_uuid_required self = true ->
      store = Some s -> get_header req uuid_header = Some rid ->
      get_timestamp rid = Some timestamp ->
      has_valid_timestamp timestamp = false ->
      rejected store req
  | reused_identifier s rid timestamp :
      signature_check req = Ok true -> is_uuid_required self = true ->
      store = Some s -> get_header req uuid_header = Some rid ->
      get_timestamp rid = Some timestamp ->
      redis_get s now (redis_key rid) <> None ->
      rejected store req.

End Model.

Arguments Request : clear implicits.
Arguments world : clear implicits.

Definition is_redis_set (e : event) : bool :=
  match e with RedisSet _ _ _ => true | _ => false end.

Definition is_redis_call (e : event) : bool :=
  match e with RedisGet _ | RedisSet _ _ _ => true | _ => false end.

(** One middleware object serving requests one after the other: each call
    has its own clock reading, and the store is carried from call to call,
    also when a call ends in an exception. *)
Record Call (Media : Type) := {
  call_time : Q;
  call_uuid1 : string;
  call_request : Request Media
}.
Arguments call_time {Media} c.
Arguments call_uuid1 {Media} c.
Arguments call_request {Media} c.

Definition serve {Media S} `{ReplayStore S}
    (hmac_digest : digestmod -> bytes -> bytes -> bytes)
    (get_timestamp : string -> option Q) (self : Middleware)
    (store : option S) (calls : list (Call Media)) : option S :=
  fold_left
    (fun st c =>
       redis (snd (handle hmac_digest get_timestamp self (call_time c)
                          (call_uuid1 c) st (call_request c))))
    calls store.

(** An identifier counts as used over a stretch of time when the store
    answers for its key throughout. *)
Definition used_during {S} `{ReplayStore S}
    (s : S) (key : string) (from to : Q) : Prop :=
  forall t, (from <= t)%Q -> (t < to)%Q -> redis_get s t key <> None.

(** ** [hashlib] and [hmac]

    SHA-256 and SHA-1 over 32-bit words held in [Z], and HMAC on top of
    them, so that the model can be run on real signatures. *)

Module Hashlib.
Open Scope list_scope.
Open Scope Z_scope.

Definition wrap (x : Z) : Z := x mod 2 ^ 32.
Definition add32 (x y : Z) : Z := wrap (x + y).
Definition rotr (n x : Z) : Z :=
  Z.lor (Z.shiftr x n) (wrap (Z.shiftl x (32 - n))).
Definition rotl (n x : Z) : Z := rotr (32 - n) x.
Definition not32 (x : Z) : Z := Z.lxor x (2 ^ 32 - 1).

Definition byte_of_Z (x : Z) : Byte.byte := chr (Z.to_N (x mod 256)).

(** Big-endian conversions. *)
Definition word_of_bytes (bs : bytes) : Z :=
  fold_left (fun w b => w * 256 + Z.of_N (ord b)) bs 0.

Definition bytes_of_word (w : Z) : bytes :=
  [byte_of_Z (Z.shiftr w 24); byte_of_Z (Z.shiftr w 16);
   byte_of_Z (Z.shiftr w 8); byte_of_Z w].

Fixpoint words (n : nat) (bs : bytes) : list Z :=
  match n with
  | O => []
  | Datatypes.S n' => word_of_bytes (firstn 4 bs) :: words n' (skipn 4 bs)
  end.

(** Padding: a [0x80] byte, zeros up to 56 modulo 64, and the length in
    bits on eight bytes. *)
Definition pad (msg : bytes) : bytes :=
  let len := Z.of_nat (length msg) in
  let zeros := Z.to_nat ((55 - len) mod 64) in
  let bits := len * 8 in
  msg ++ [chr 128] ++ repeat (chr 0) zeros
      ++ bytes_of_word (Z.shiftr bits 32) ++ bytes_of_word (wrap bits).

Fixpoint blocks (n : nat) (bs : bytes) : list (list Z) :=
  match n with
  | O => []
  | Datatypes.S n' => words 16 (firstn 64 bs) :: blocks n' (skipn 64 bs)
  end.

Definition padded_blocks (msg : bytes) : list (list Z) :=
  let p := pad msg in blocks (length p / 64) p.

Definition nthw (i : nat) (w : list Z) : Z := nth i w 0.

(** *** SHA-256 *)

(** The constants are the first 32 bits of the fractional parts of the
    cube roots (round constants) and square roots (initial hash value) of
    the first primes. *)
Definition is_prime (n : Z) : bool :=
  forallb (fun d => negb (n mod d =? 0)) (map Z.of_nat (seq 2 (Z.to_nat n - 2))).

Definition primes : list Z :=
  List.filter is_prime (map Z.of_nat (seq 2 310)).

(** The integer cube root, one bit at a time from bit 35 down. *)
Definition cube_root (n : Z) : Z :=
  fold_left
    (fun r i =>
       let r' := r + 2 ^ Z.of_nat i in
       if r' * r' * r' <=? n then r' else r)
    (rev (seq 0 36)) 0.

Definition K256 : list Z :=
  Eval vm_compute in map (fun p => wrap (cube_root (p * 2 ^ 96))) primes.

Definition H256 : list Z :=
  Eval vm_compute in
    map (fun p => wrap (Z.sqrt (p * 2 ^ 64))) (firstn 8 primes).

(** One round: the working variables and a window on the message schedule,
    whose head is the word of this round. *)
Definition round256 (st : list Z * list Z) (k : Z) : list Z * list Z :=
  let '(v, w) := st in
  let a := nthw 0 v in let b := nthw 1 v in let c := nthw 2 v in
  let d := nthw 3 v in let e := nthw 4 v in let f := nthw 5 v in
  let g := nthw 6 v in let h := nthw 7 v in
  let s1 := Z.lxor (Z.lxor (rotr 6 e) (rotr 11 e)) (rotr 25 e) in
  let ch := Z.lxor (Z.land e f) (Z.land (not32 e) g) in
  let t1 := add32 (add32 (add32 (add32 h s1) ch) k) (nthw 0 w) in
  let s0 := Z.lxor (Z.lxor (rotr 2 a) (rotr 13 a)) (rotr 22 a) in
  let maj := Z.lxor (Z.lxor (Z.land a b) (Z.land a c)) (Z.land b c) in
  let t2 := add32 s0 maj in
  let w1 := nthw 1 w in let w14 := nthw 14 w in
  let sig0 := Z.lxor (Z.lxor (rotr 7 w1) (rotr 18 w1)) (Z.shiftr w1 3) in
  let sig1 := Z.lxor (Z.lxor (rotr 17 w14) (rotr 19 w14)) (Z.shiftr w14 10) in
  let next := add32 (add32 (add32 sig1 (nthw 9 w)) sig0) (nthw 0 w) in
  ([add32 t1 t2; a; b; c; add32 d t1; e; f; g], tl w ++ [next]).

Definition compress256 (h : list Z) (block : list Z) : list Z :=
  let v := fst (fold_left round256 K256 (h, block)) in
  map (fun p => add32 (fst p) (snd p)) (combine h v).

Definition sha256_digest (msg : bytes) : bytes :=
  concat (map bytes_of_word (fold_left compress256 (padded_blocks msg) H256)).

(** *** SHA-1 *)

Definition H1 : list Z :=
  [0x67452301; 0xefcdab89; 0x98badcfe; 0x10325476; 0xc3d2e1f0].

Definition round1 (st : list Z * list Z) (t : nat) : list Z * list Z :=
  let '(v, w) := st in
  let a := nthw 0 v in let b := nthw 1 v in let c := nthw 2 v in
  let d := nthw 3 v in let e := nthw 4 v in
  let '(f, k) :=
    if (t <? 20)%nat then
      (Z.lor (Z.land b c) (Z.land (not32 b) d), 0x5a827999)
    else if (t <? 40)%nat then (Z.lxor (Z.lxor b c) d, 0x6ed9eba1)
    else if (t <? 60)%nat then
      (Z.lor (Z.lor (Z.land b c) (Z.land b d)) (Z.land c d), 0x8f1bbcdc)
    else (Z.lxor (Z.lxor b c) d, 0xca62c1d6) in
  let temp := add32 (add32 (add32 (add32 (rotl 5 a) f) e) k) (nthw 0 w) in
  let next :=
    rotl 1 (Z.lxor (Z.lxor (Z.lxor (nthw 13 w) (nthw 8 w)) (nthw 2 w))
                   (nthw 0 w)) in
  ([temp; a; rotl 30 b; c; d], tl w ++ [next]).

Definition compress1 (h : list Z) (block : list Z) : list Z :=
  let v := fst (fold_left round1 (seq 0 80) (h, block)) in
  map (fun p => add32 (fst p) (snd p)) (combine h v).

Definition sha1_digest (msg : bytes) : bytes :=
  concat (map bytes_of_word (fold_left compress1 (padded_blocks msg) H1)).

(** *** HMAC (RFC 2104), block size 64 *)

Definition xor_byte (c : Z) (b : Byte.byte) : Byte.byte :=
  byte_of_Z (Z.lxor c (Z.of_N (ord b))).

Definition hmac (digest : bytes -> bytes) (key msg : bytes) : bytes :=
  let key := if (64 <? length key)%nat then digest key else key in
  let key := key ++ repeat (chr 0) (64 - length key) in
  digest (map (xor_byte 0x5c) key ++ digest (map (xor_byte 0x36) key ++ msg)).

End Hashlib.

(** ** Sample instances, used to run the model on concrete requests *)

Module Sample.

(** [hmac.new(key, msg, digestmod).digest()] *)
Definition hmac_digest (d : digestmod) (key msg : bytes) : bytes :=
  Hashlib.hmac
    (match d with
     | sha256 => Hashlib.sha256_digest
     | sha1 => Hashlib.sha1_digest
     end) key msg.

(** An identifier codec in the manner of [time_uuid]. The text is read
    as the constructor of [uuid.UUID] reads it: [urn:] and [uuid:] are
    taken out, braces are stripped from both ends, dashes are taken out,
    and what is left must be 32 characters that [int(hex, 16)] accepts.
    The 60-bit count of 100 ns ticks since 1582-10-15 is then turned into
    seconds since 1970 as [(time - 0x01b21dd213814000) / 1e7], in double
    precision. *)
Definition hex_value (c : ascii) : option N :=
  let n := N_of_ascii c in
  if (48 <=? n)%N && (n <=? 57)%N then Some (n - 48)%N
  else if (97 <=? n)%N && (n <=? 102)%N then Some (n - 87)%N
  else if (65 <=? n)%N && (n <=? 70)%N then Some (n - 55)%N
  else None.

Fixpoint starts_with (p s : string) : bool :=
  match p, s with
  | EmptyString, _ => true
  | String a p', String b s' => bool_decide (a = b) && starts_with p' s'
  | String _ _, EmptyString => false
  end.

(** [s.replace(old, "")] for a non-empty [old]: occurrences are taken out
    from left to right; [skip] counts the characters of an occurrence
    still to pass over. *)
Fixpoint remove_from (old : string) (skip : nat) (s : string) : string :=
  match s with
  | EmptyString => EmptyString
  | String c s' =>
      match skip with
      | S k => remove_from old k s'
      | O =>
          if starts_with old s
          then remove_from old (String.length old - 1) s'
          else String c (remove_from old 0 s')
      end
  end.

Definition remove (old s : string) : string := remove_from old 0 s.

(** [s.strip(chars)], by way of [lstrip] and [rstrip]. *)
Fixpoint lstrip (f : ascii -> bool) (s : string) : string :=
  match s with
  | EmptyString => EmptyString
  | String c s' => if f c then lstrip f s' else s
  end.

Fixpoint rstrip (f : ascii -> bool) (s : string) : string :=
  match s with
  | EmptyString => EmptyString
  | String c s' =>
      match rstrip f s' with
      | EmptyString => if f c then EmptyString else String c EmptyString
      | r => String c r
      end
  end.

Definition strip (f : ascii -> bool) (s : string) : string :=
  rstrip f (lstrip f s).

Definition is_brace (c : ascii) : bool :=
  bool_decide (c = "{"%char) || bool_decide (c = "}"%char).

(** What [int()] takes for white space among the code points below 256. *)
Definition is_space (c : ascii) : bool :=
  let n := N_of_ascii c in
  ((9 <=? n)%N && (n <=? 13)%N) || (n =? 32)%N || (n =? 133)%N || (n =? 160)%N.

(** The digits of an integer literal: underscores one at a time, between
    digits only. *)
Fixpoint digits16 (s : string) (acc : N) (after_digit : bool) : option N :=
  match s with
  | EmptyString => if after_digit then Some acc else None
  | String c s' =>
      if bool_decide (c = "_"%char) then
        if after_digit then digits16 s' acc false else None
      else
        match hex_value c with
        | Some d => digits16 s' (acc * 16 + d)%N true
        | None => None
        end
  end.

(** [int(s, 16)] on a text without minus sign: white space around, an
    optional [+], an optional [0x] or [0X] with one underscore allowed
    after it, then the digits. *)
Definition int16 (s : string) : option N :=
  let s := strip is_space s in
  let s := match s with String "+"%char s' => s' | _ => s end in
  let s :=
    match s with
    | String "0"%char (String x s') =>
        if bool_decide (x = "x"%char) || bool_decide (x = "X"%char)
        then match s' with String "_"%char s'' => s'' | _ => s' end
        else s
    | _ => s
    end in
  digits16 s 0 false.

(** [uuid.UUID(text).int] *)
Definition uuid_int (text : string) : option N :=
  let hex := remove "-" (strip is_brace (remove "uuid:" (remove "urn:" text))) in
  if bool_decide (String.length hex = 32%nat) then int16 hex else None.

(** [uuid.UUID.time]: [time_hi_version & 0x0fff], [time_mid] and
    [time_low] put together. *)
Definition uuid_time (n : N) : N :=
  let time_low := (n / 2 ^ 96)%N in
  let time_mid := (n / 2 ^ 80 mod 2 ^ 16)%N in
  let time_hi := (n / 2 ^ 64 mod 2 ^ 12)%N in
  (time_hi * 2 ^ 48 + time_mid * 2 ^ 32 + time_low)%N.

(** An [int] divided by a [float]: the [int] is turned into the nearest
    double first, the quotient is rounded again. A count of 60 bits is
    far from overflowing either. *)
Definition int_div_float (n : Z) (d : Q) : float :=
  match float_of_Q (inject_Z n) with
  | Finite x => float_of_Q (x / d)
  | Infinity negative => Infinity negative
  end.

Definition get_timestamp (request_id : string) : option Q :=
  match uuid_int request_id with
  | Some n =>
      match int_div_float (Z.of_N (uuid_time n) - 122192928000000000) 10000000 with
      | Finite t => Some t
      | Infinity _ => None
      end
  | None => None
  end.

(** A media handler for JSON strings: the text between the quotes. *)
Definition deserialize (body : bytes) : option string :=
  match body with
  | q :: rest =>
      if bool_decide (q = chr 34) && bool_decide (last rest = Some (chr 34))
      then Some (string_of_list_byte (removelast rest))
      else None
  | [] => None
  end.

Definition headers (l : list (string * string)) (name : string) : option string :=
  snd <$> List.find (fun kv => bool_decide (fst kv = name)) l.

Definition secret_only : Config := {|
  cfg_secret := Some "SecretKey1234"; cfg_header := None; cfg_expiry := None;
  cfg_digest := None; cfg_hash := None; cfg_nonce_prefix := None;
  cfg_is_uuid_required := None; cfg_debug_bypass := None
|}.

(** The default configuration, but with hexadecimal signatures. *)
Definition hex_config : Config := {|
  cfg_secret := Some "SecretKey1234"; cfg_header := None; cfg_expiry := None;
  cfg_digest := Some "hex"; cfg_hash := None; cfg_nonce_prefix := None;
  cfg_is_uuid_required := None; cfg_debug_bypass := None
|}.

(** The configuration of [TestGithubStyleMiddleware]. *)
Definition github_config : Config := {|
  cfg_secret := Some "SecretKey1234"; cfg_header := Some "hub"; cfg_expiry := None;
  cfg_digest := Some "hex"; cfg_hash := Some "sha1"; cfg_nonce_prefix := None;
  cfg_is_uuid_required := Some false; cfg_debug_bypass := None
|}.

Definition no_secret : Config := {|
  cfg_secret := None; cfg_header := None; cfg_expiry := None;
  cfg_digest := Some "hex"; cfg_hash := None; cfg_nonce_prefix := None;
  cfg_is_uuid_required := Some false; cfg_debug_bypass := None
|}.

(** A version-1 UUID made at 1793700000 s (2026-11-03 10:00:00 UTC). *)
Definition id1 : string := "54d75000-d76d-11f1-8000-0242ac120002".
Definition t0 : Q := 1793700000.

(** The JSON text of a string: the text between two quotes (code 34). *)
Definition json_string (text : string) : bytes :=
  (chr 34 :: encode_utf8 text ++ [chr 34])%list.

Definition data : bytes := json_string "Example Data".

Definition request (m : string) (hs : list (string * string)) (b : bytes)
  : Request string :=
  {| method := m; get_header := headers hs; bounded_stream := b;
     media_handler := Some deserialize |}.

Definition run (c : Config) (now : Q) (store : option TtlStore)
    (req : Request string) : res unit * world string TtlStore :=
  handle hmac_digest get_timestamp (init c) now "fresh-uuid1" store req.

(** A POST signed over identifier and body, signature in hexadecimal. *)
Definition signed_post : Request string :=
  request "POST"
    [("x-auth-signature",
      "41f6d6d598fb644955ad58d66b94aa9e543a6a3b156b20e21f97483904f4aed2");
     ("x-auth-uuid", id1)] data.

(** The same request with the signature in base64. *)
Definition base64_post : Request string :=
  request "POST"
    [("x-auth-signature", "QfbW1Zj7ZElVrVjWa5SqnlQ6ajsVayDiH5dIOQT0rtI=");
     ("x-auth-uuid", id1)] data.

(** The same identifier under a signature that does not match. *)
Definition forged_post : Request string :=
  request "POST"
    [("x-auth-signature",
      "0000000000000000000000000000000000000000000000000000000000000000");
     ("x-auth-uuid", id1)] data.

(** A signed POST whose identifier is not a UUID. *)
Definition malformed_post : Request string :=
  request "POST"
    [("x-auth-signature",
      "f506359cd505184fd1167de65f716f3b07678d0ce34f91c7da7e2c94407e6f60");
     ("x-auth-uuid", "not-a-uuid")] data.

(** [test_get_passthrough]: a GET with no headers and no body. *)
Definition plain_get : Request string := request "GET" [] [].

(** The headers of [signed_post] on a GET. *)
Definition matching_get : Request string :=
  request "GET"
    [("x-auth-signature",
      "41f6d6d598fb644955ad58d66b94aa9e543a6a3b156b20e21f97483904f4aed2");
     ("x-auth-uuid", id1)] data.

(** The default configuration without identifier, and a POST signed over
    the body alone, signature in base64. *)
Definition no_identifier_config : Config := {|
  cfg_secret := Some "SecretKey1234"; cfg_header := None; cfg_expiry := None;
  cfg_digest := None; cfg_hash := None; cfg_nonce_prefix := None;
  cfg_is_uuid_required := Some false; cfg_debug_bypass := None
|}.

Definition base64_body_post : Request string :=
  request "POST"
    [("x-auth-signature", "9OjRDAzCB+TCwG0wGvXTejkZBL8iQo+ymuPf51aIRyw=")] data.

(** Hexadecimal signatures and an expiry of one's choice. *)
Definition expiry_config (seconds : Z) : Config := {|
  cfg_secret := Some "SecretKey1234"; cfg_header := None;
  cfg_expiry := Some seconds;
  cfg_digest := Some "hex"; cfg_hash := None; cfg_nonce_prefix := None;
  cfg_is_uuid_required := None; cfg_debug_bypass := None
|}.

(** Two version-1 UUIDs of long ago: a tick count of zero (1582-10-15),
    and one second into 1970. *)
Definition id_1582 : string := "00000000-0000-1000-8000-000000000000".
Definition id_1970 : string := "1419d680-1dd2-11b2-8000-0242ac120002".

(** [_has_valid_request_id] on an empty store. *)
Definition has_valid_request_id (c : Config) (now : Q) (request_id : string)
  : res bool :=
  fst (_has_valid_request_id get_timestamp (init c) now (Some request_id)
         (fresh_world (Media:=string) (Some (∅ : TtlStore)))).

(** The requests of [TestGithubStyleMiddleware]: signed over the body
    alone; then the same signature on another body. *)
Definition github_post : Request string :=
  request "POST"
    [("x-hub-signature", "2603d418bd482dc3b04456da8eb139e97ad10c79")] data.

Definition github_tampered : Request string :=
  request "POST"
    [("x-hub-signature", "2603d418bd482dc3b04456da8eb139e97ad10c79")]
    (json_string "Different Data").


End Sample.

(** ** The test suite: [tests/conf.py]

    [get_authentic_request] is the signer the tests use. [json.dumps] is
    a parameter; a [dict] of headers is a finite map. *)

Module Conf.

Definition SECRET_KEY : string := "SecretKey1234".

Section GetAuthenticRequest.
Context {Data : Type}.
Variable hmac_digest : digestmod -> bytes -> bytes -> bytes.
Variable json_dumps : Data -> string.

(** [get_authentic_request] (lines 52-84). The defaults of the optional
    arguments are [None], [hashlib.sha256], ["base64"], [""] and ["Auth"];
    [request_id] stands for [str(request_id)]. The base64 digest is ASCII,
    so that [decode("utf-8")] turns it into text byte for byte. *)
Definition get_authentic_request
    (data : Data) (request_id : option string) (hash : digestmod)
    (encoding sig_prefix header_name : string)
  : bytes * gmap string string :=
  let secret := encode_utf8 SECRET_KEY in
  let body := encode_utf8 (json_dumps data) in
  let msg :=
    match request_id with
    | Some rid => (encode_utf8 rid ++ body)%list
    | None => body
    end in
  let hmac_sig := hmac_digest hash secret msg in
  let signature :=
    if bool_decide (encoding = "base64")
    then string_of_list_byte (b64encode hmac_sig)
    else hexlify hmac_sig in
  let headers : gmap string string :=
    <["X-" ++ header_name ++ "-Signature" := sig_prefix ++ signature]>
      {["Content-Type" := "application/json"]} in
  let headers :=
    match request_id with
    | Some rid => <["X-" ++ header_name ++ "-UUID" := rid]> headers
    | None => headers
    end in
  (body, headers).

End GetAuthenticRequest.

(** What [client.simulate_request(method="POST", headers=headers,
    body=body)] hands to the middleware: the body as sent, and the two
    headers the middleware asks for, found under the names the test gave
    them (header names are matched without regard to case). *)
Definition delivered {Media : Type} (self : Middleware) (header_name : string)
    (request : bytes * gmap string string) (req : Request Media) : Prop :=
  method req = "POST" /\
  bounded_stream req = fst request /\
  get_header req (signature_header self)
    = snd request !! ("X-" ++ header_name ++ "-Signature") /\
  get_header req (uuid_header self)
    = snd request !! ("X-" ++ header_name ++ "-UUID").

(** Signer and verifier agree on the secret, the hash, the hexadecimal
    encoding and on whether the identifier is signed. *)
Definition agree (self : Middleware) (request_id : option string)
    (h : digestmod) (encoding : string) : Prop :=
  cfg_secret (config self) = Some SECRET_KEY /\
  digest self <> "base64" /\ encoding <> "base64" /\
  h = (if bool_decide (hash self = "sha256") then sha256 else sha1) /\
  (is_uuid_required self = true -> request_id <> None) /\
  (is_uuid_required self = false -> request_id = None).

End Conf.

(** ** Further sample requests *)

Module MoreSamples.
Import Sample.

(** A GET that bears a signature header of no worth. *)
Definition signed_get : Request string :=
  request "GET" [("x-auth-signature", "anything")] [].

(** [test_inauthentic]: a POST with a body and no headers. *)
Definition unsigned_post : Request string :=
  request "POST" [] (encode_utf8 "Unauthenticated Data").

(** [test_missing_id]: a POST signed over the body alone, without
    identifier header. *)
Definition missing_id_post : Request string :=
  request "POST"
    [("x-auth-signature", "2603d418bd482dc3b04456da8eb139e97ad10c79")] data.

(** A signature header with a character outside ASCII (code 233). *)
Definition non_ascii_post : Request string :=
  request "POST"
    [("x-auth-signature", String (ascii_of_N 233) "abc"); ("x-auth-uuid", id1)]
    data.

(** The signed request of [TestGithubStyleMiddleware] with a content type
    for which no media handler is found. *)
Definition no_handler_post : Request string :=
  {| method := "POST";
     get_header :=
       headers [("x-hub-signature", "2603d418bd482dc3b04456da8eb139e97ad10c79")];
     bounded_stream := data;
     media_handler := None |}.

(** A version-1 UUID dated one day after [t0], and a POST signed over it. *)
Definition id_future : string := "7f411000-d836-11f1-8000-0242ac120002".

Definition future_post : Request string :=
  request "POST"
    [("x-auth-signature",
      "469c10f21028f3599a3d9a3c9a98590b285b5289a953efd66b829ab2a552cb5e");
     ("x-auth-uuid", id_future)] data.

(** [json.dumps] on a string without characters to escape. *)
Definition json_dumps (text : string) : string :=
  String (ascii_of_N 34) (text ++ String (ascii_of_N 34) "").

(** What the signer of the test suite makes of ["Example Data"] in the
    tests of [TestGithubStyleMiddleware], without and with the prefix. *)
Definition github_request : bytes * gmap string string :=
  Conf.get_authentic_request hmac_digest json_dumps "Example Data" None sha1
    "hex" "" "Hub".

Definition github_prefixed_request : bytes * gmap string string :=
  Conf.get_authentic_request hmac_digest json_dumps "Example Data" None sha1
    "hex" "sha1=" "Hub".

(** The same requests as they reach the middleware. *)
Definition github_prefixed_post : Request string :=
  request "POST"
    [("x-hub-signature", "sha1=2603d418bd482dc3b04456da8eb139e97ad10c79")] data.

(** The middleware over a [FakeRedis]. *)
Definition run_fake (c : Config) (now : Q) (store : option FakeRedis)
    (req : Request string) : res unit * world string FakeRedis :=
  handle hmac_digest get_timestamp (init c) now "fresh-uuid1" store req.

End MoreSamples.

(** * Properties *)

(** ** Encodings *)

Example b64encode_three : b64encode (encode_utf8 "Man") = encode_utf8 "TWFu".
Proof. reflexivity. Qed.

Example b64encode_two : b64encode (encode_utf8 "Ma") = encode_utf8 "TWE=".
Proof. reflexivity. Qed.

Example b64encode_one : b64encode (encode_utf8 "M") = encode_utf8 "TQ==".
Proof. reflexivity. Qed.

Example b64encode_high : b64encode [chr 251; chr 255; chr 190] = encode_utf8 "+/++".
Proof. reflexivity. Qed.

Example hexlify_sample : hexlify [chr 0; chr 171; chr 255; chr 16] = "00abff10".
Proof. reflexivity. Qed.

Example sha256_abc :
  hexlify (Hashlib.sha256_digest (encode_utf8 "abc"))
  = "ba7816bf8f01cfea414140de5dae2223b00361a396177a9cb410ff61f20015ad".
Proof. vm_compute. reflexivity. Qed.

Example sha1_abc :
  hexlify (Hashlib.sha1_digest (encode_utf8 "abc"))
  = "a9993e364706816aba3e25717850c26c9cd0d89d".
Proof. vm_compute. reflexivity. Qed.

(** A key longer than a block is hashed first. *)
Example hmac_sha256_long_key :
  hexlify (Hashlib.hmac Hashlib.sha256_digest (repeat (chr 107) 100)
                        (encode_utf8 "msg"))
  = "bd56a1782c2830e8abc6ed866a57a1230661e650b84c62f7ee3accc5fa5af491".
Proof. vm_compute. reflexivity. Qed.

Example hmac_sha1_long_key :
  hexlify (Hashlib.hmac Hashlib.sha1_digest (repeat (chr 107) 100)
                        (encode_utf8 "msg"))
  = "a3f6e90d792b6ca5ed3bfc556a4aa73d62d7cae4".
Proof. vm_compute. reflexivity. Qed.

(** The signatures [get_authentic_request] of [tests/conf.py] computes for
    the body ["Example Data"] in JSON: with an identifier in front under
    SHA-256, and alone under SHA-1. *)
Example reference_signature_sha256 :
  hexlify (Sample.hmac_digest sha256 (encode_utf8 "SecretKey1234")
             (encode_utf8 Sample.id1 ++ Sample.data)%list)
  = "41f6d6d598fb644955ad58d66b94aa9e543a6a3b156b20e21f97483904f4aed2".
Proof. vm_compute. reflexivity. Qed.

Example reference_signature_sha1 :
  hexlify (Sample.hmac_digest sha1 (encode_utf8 "SecretKey1234") Sample.data)
  = "2603d418bd482dc3b04456da8eb139e97ad10c79".
Proof. vm_compute. reflexivity. Qed.

Example encode_utf8_latin1 :
  encode_utf8 (String (ascii_of_N 233) "a") = [chr 195; chr 169; chr 97].
Proof. reflexivity. Qed.

Lemma hex_digit_is_ascii n : (n < 16)%N -> is_ascii_char (hex_digit n) = true.
Proof.
  intros Hn. unfold is_ascii_char, hex_digit.
  destruct (n <? 10)%N eqn:E.
  - apply N.ltb_lt in E. rewrite N_ascii_embedding by lia. apply N.ltb_lt. lia.
  - apply N.ltb_ge in E. rewrite N_ascii_embedding by lia. apply N.ltb_lt. lia.
Qed.

Lemma ord_bound b : (ord b < 256)%N.
Proof. unfold ord. pose proof (Byte.to_N_bounded b). lia. Qed.

Lemma hexlify_is_ascii bs : is_ascii (hexlify bs) = true.
Proof.
  induction bs as [|b bs IH]; [reflexivity|].
  pose proof (ord_bound b) as Hb. cbn [hexlify is_ascii].
  rewrite !hex_digit_is_ascii, IH; [reflexivity| |].
  - apply N.mod_lt. lia.
  - apply N.Div0.div_lt_upper_bound. lia.
Qed.

(** Comparing a hexadecimal digest with itself succeeds. *)
Lemma compare_digest_hex_refl bs :
  compare_digest (PyStr (hexlify bs)) (PyStr (hexlify bs)) = Ok true.
Proof.
  cbn. rewrite hexlify_is_ascii. cbn. by rewrite bool_decide_eq_true_2.
Qed.

(** [bytes] never compare with the [str] or [None] a header yields. *)
Lemma compare_digest_bytes_header bs h :
  compare_digest (PyBytes bs) (of_header h) = Raise TypeError.
Proof. by destruct h. Qed.

Lemma compare_digest_none a : compare_digest a PyNone = Raise TypeError.
Proof. by destruct a. Qed.

(** ** Floating point *)

(** The rounding on values one can check against any implementation of
    binary64 (in Python, [x.as_integer_ratio()]): the subtraction that
    rounds up to the next integer; [0.1] and [-1/3]; a tie going to the
    even significand, downwards and upwards; the largest double and the
    first value to overflow; the tie below the smallest double and the
    one above it. *)
Example float_sub_rounds_up :
  float_sub (1793700000 - (1 # 4194304)) (-12219292800) = Finite 14012992800.
Proof. vm_compute. reflexivity. Qed.

Example float_of_Q_samples :
  float_of_Q (1 # 10) = Finite (3602879701896397 # 36028797018963968) /\
  float_of_Q (- (1 # 3)) = Finite (-6004799503160661 # 18014398509481984) /\
  float_of_Q 9007199254740993 = Finite 9007199254740992 /\
  float_of_Q 9007199254740995 = Finite 9007199254740996 /\
  float_of_Q (2 ^ 1024 - 2 ^ 970 - 1) = Finite (Qred ((2 ^ 53 - 1) * 2 ^ 971)) /\
  float_of_Q (2 ^ 1024 - 2 ^ 970) = Infinity false /\
  float_of_Q (- 2 ^ 1024) = Infinity true /\
  float_of_Q (1 / 2 ^ 1075) = Finite 0 /\
  float_of_Q (3 / 2 ^ 1075) = Finite (Qred (1 / 2 ^ 1073)).
Proof. vm_compute. repeat split; reflexivity. Qed.

Lemma Qltb_true a b : Qltb a b = true <-> (a < b)%Q.
Proof.
  unfold Qltb. rewrite negb_true_iff, <- not_true_iff_false, Qle_bool_iff.
  split; [apply Qnot_le_lt | apply Qlt_not_le].
Qed.

(** Powers of two. *)
Lemma pow2_pos e : (0 < 2 ^ e)%Q.
Proof. by apply Qpower_0_lt. Qed.

Lemma pow2_add a b : (2 ^ (a + b) == 2 ^ a * 2 ^ b)%Q.
Proof. by apply Qpower_plus. Qed.

Lemma pow2_le a b : (a <= b)%Z -> (2 ^ a <= 2 ^ b)%Q.
Proof. intros Hab. by apply Qpower_le_compat_l. Qed.

Lemma pow2_lt_inv a b : (2 ^ a < 2 ^ b)%Q -> (a < b)%Z.
Proof. intros Hab. by apply (Qpower_lt_compat_l_inv 2). Qed.

Lemma pow2_Z n : (0 <= n)%Z -> (2 ^ n == inject_Z (2 ^ n))%Q.
Proof. intros Hn. by rewrite Zpower_Qpower. Qed.

Lemma pow2_inv e : (2 ^ e * 2 ^ (- e) == 1)%Q.
Proof. rewrite <- pow2_add, Z.add_opp_diag_r. reflexivity. Qed.

Lemma div_pow2 x e : (x / 2 ^ e == x * 2 ^ (- e))%Q.
Proof. unfold Qdiv. by rewrite Qpower_opp. Qed.

(** [ilog2] is the floor of the binary logarithm. *)
Lemma ilog2_spec x :
  (0 < x)%Q -> (2 ^ ilog2 x <= x)%Q /\ (x < 2 ^ (ilog2 x + 1))%Q.
Proof.
  intros Hx. destruct x as [n d]. unfold ilog2. cbn [Qnum Qden].
  assert (0 < n)%Z as Hn.
  { unfold Qlt in Hx. cbn in Hx. lia. }
  set (a := Z.log2 n). set (b := Z.log2 (Z.pos d)).
  destruct (Z.log2_spec n Hn) as [Ha1 Ha2]. fold a in Ha1, Ha2.
  destruct (Z.log2_spec (Z.pos d) ltac:(lia)) as [Hb1 Hb2]. fold b in Hb1, Hb2.
  assert (0 <= a)%Z as Ha0 by apply Z.log2_nonneg.
  assert (0 <= b)%Z as Hb0 by apply Z.log2_nonneg.
  assert (n # d == inject_Z n / inject_Z (Z.pos d))%Q as Hnd by apply Qmake_Qdiv.
  assert (0 < inject_Z (Z.pos d))%Q as Hd0.
  { unfold Qlt. cbn. lia. }
  assert (2 ^ a <= inject_Z n)%Q as Qa1.
  { rewrite pow2_Z by done. by rewrite <- Zle_Qle. }
  assert (inject_Z n < 2 ^ (a + 1))%Q as Qa2.
  { rewrite pow2_Z by lia. rewrite <- Zlt_Qlt. by rewrite <- Z.add_1_r in Ha2. }
  assert (2 ^ b <= inject_Z (Z.pos d))%Q as Qb1.
  { rewrite pow2_Z by done. by rewrite <- Zle_Qle. }
  assert (inject_Z (Z.pos d) < 2 ^ (b + 1))%Q as Qb2.
  { rewrite pow2_Z by lia. rewrite <- Zlt_Qlt. by rewrite <- Z.add_1_r in Hb2. }
  assert (n # d < 2 ^ (a - b + 1))%Q as Hup.
  { rewrite Hnd. apply Qlt_shift_div_r; [done|].
    eapply Qlt_le_trans; [exact Qa2|].
    replace (a + 1)%Z with ((a - b + 1) + b)%Z by lia.
    rewrite pow2_add. apply Qmult_le_l; [apply pow2_pos|done]. }
  assert (2 ^ (a - b - 1) < n # d)%Q as Hlow.
  { rewrite Hnd. apply Qlt_shift_div_l; [done|].
    eapply Qlt_le_trans; [|exact Qa1].
    replace a with ((a - b - 1) + (b + 1))%Z at 2 by lia.
    rewrite pow2_add. apply Qmult_lt_l; [apply pow2_pos|done]. }
  destruct (Qle_bool (2 ^ (a - b)) (n # d)) eqn:Hc.
  - apply Qle_bool_iff in Hc. by split.
  - split; [by apply Qlt_le_weak|].
    replace (a - b - 1 + 1)%Z with (a - b)%Z by lia.
    apply Qnot_le_lt. intros Hle. apply Qle_bool_iff in Hle. congruence.
Qed.

(** Rounding to the nearest integer does not cross an integer. *)
Lemma round_half_even_bounds y :
  (Qfloor y <= round_half_even y)%Z /\ (round_half_even y <= Qceiling y)%Z.
Proof.
  unfold round_half_even.
  pose proof (Qfloor_le y) as Hf. pose proof (Qle_ceiling y) as Hc.
  pose proof (Qle_floor_ceiling y) as Hfc. rewrite <- Zle_Qle in Hfc.
  assert ((inject_Z (Qfloor y) < y)%Q -> (Qfloor y + 1 <= Qceiling y)%Z) as Hup.
  { intros Hlt.
    assert (Qfloor y < Qceiling y)%Z; [|lia].
    rewrite Zlt_Qlt. by eapply Qlt_le_trans. }
  destruct (y - inject_Z (Qfloor y) ?= 1 # 2)%Q eqn:Hcmp.
  - apply Qeq_alt in Hcmp.
    assert (Qfloor y + 1 <= Qceiling y)%Z by (apply Hup; lra).
    destruct (Z.even (Qfloor y)); split; lia.
  - split; lia.
  - apply Qgt_alt in Hcmp. split; [lia|]. apply Hup. lra.
Qed.

Lemma round_half_even_ge (k : Z) y :
  (inject_Z k <= y)%Q -> (k <= round_half_even y)%Z.
Proof.
  intros Hk. etrans; [|apply round_half_even_bounds].
  rewrite <- (Qfloor_Z k). by apply Qfloor_resp_le.
Qed.

Lemma round_half_even_le (k : Z) y :
  (y <= inject_Z k)%Q -> (round_half_even y <= k)%Z.
Proof.
  intros Hk. etrans; [apply round_half_even_bounds|].
  rewrite <- (Qceiling_Z k). by apply Qceiling_resp_le.
Qed.

(** Rounding on the grid of step [2 ^ e] does not cross a point of the
    grid. *)
Lemma round_grid_ge (j e : Z) a :
  (inject_Z j * 2 ^ e <= a)%Q ->
  (inject_Z j * 2 ^ e <= inject_Z (round_half_even (a / 2 ^ e)) * 2 ^ e)%Q.
Proof.
  intros Hj. apply Qmult_le_compat_r; [|apply Qlt_le_weak, pow2_pos].
  rewrite <- Zle_Qle. apply round_half_even_ge.
  apply Qle_shift_div_l; [apply pow2_pos|done].
Qed.

Lemma round_grid_le (j e : Z) a :
  (a <= inject_Z j * 2 ^ e)%Q ->
  (inject_Z (round_half_even (a / 2 ^ e)) * 2 ^ e <= inject_Z j * 2 ^ e)%Q.
Proof.
  intros Hj. apply Qmult_le_compat_r; [|apply Qlt_le_weak, pow2_pos].
  rewrite <- Zle_Qle. apply round_half_even_le.
  apply Qle_shift_div_r; [apply pow2_pos|done].
Qed.

(** An integer is a point of every grid of step [2 ^ e] with [e <= 0]. *)
Lemma integer_on_grid (k e : Z) :
  (e <= 0)%Z -> (inject_Z (k * 2 ^ (- e)) * 2 ^ e == inject_Z k)%Q.
Proof.
  intros He. rewrite inject_Z_mult, <- pow2_Z by lia.
  rewrite <- Qmult_assoc, (Qmult_comm (2 ^ (- e))), pow2_inv. ring.
Qed.

Lemma pow2_53 : (2 ^ 53 == inject_Z (2 ^ 53))%Q.
Proof. reflexivity. Qed.

(** The exponent of a magnitude above [2 ^ 53]. *)
Lemma exponent_positive a :
  (0 < a)%Q -> (0 < Z.max (ilog2 a - 52) (-1074))%Z ->
  (inject_Z (2 ^ 52) * 2 ^ Z.max (ilog2 a - 52) (-1074) <= a)%Q /\
  (2 ^ 53 <= inject_Z (2 ^ 52) * 2 ^ Z.max (ilog2 a - 52) (-1074))%Q.
Proof.
  intros Ha He. destruct (ilog2_spec a Ha) as [Hlow _].
  replace (Z.max (ilog2 a - 52) (-1074)) with (ilog2 a - 52)%Z in * by lia.
  rewrite <- (pow2_Z 52), <- pow2_add by lia.
  replace (52 + (ilog2 a - 52))%Z with (ilog2 a) by lia.
  split; [done|]. apply pow2_le. lia.
Qed.

Lemma round_magnitude_ge (k : Z) a :
  (0 < a)%Q -> (k <= 2 ^ 53)%Z -> (inject_Z k <= a)%Q ->
  match round_magnitude a with
  | Some r => (inject_Z k <= r)%Q
  | None => True
  end.
Proof.
  intros Ha Hk Hka. unfold round_magnitude.
  set (e := Z.max (ilog2 a - 52) (-1074)).
  destruct (Qle_bool _ _); [done|]. rewrite Qred_correct.
  destruct (Z_le_gt_dec e 0) as [He|He].
  - rewrite <- (integer_on_grid k e He) at 1. apply round_grid_ge.
    by rewrite integer_on_grid.
  - destruct (exponent_positive a Ha) as [Hlow Hbig]; [fold e; lia|]. fold e in Hlow, Hbig.
    eapply Qle_trans; [|by apply round_grid_ge].
    eapply Qle_trans; [|exact Hbig]. rewrite pow2_53, <- Zle_Qle. done.
Qed.

Lemma round_magnitude_le (k : Z) a :
  (0 < a)%Q -> (k <= 2 ^ 53)%Z -> (a <= inject_Z k)%Q ->
  exists r, round_magnitude a = Some r /\ (r <= inject_Z k)%Q.
Proof.
  intros Ha Hk Hka. unfold round_magnitude.
  set (e := Z.max (ilog2 a - 52) (-1074)).
  assert (inject_Z (round_half_even (a / 2 ^ e)) * 2 ^ e <= inject_Z k)%Q as Hr.
  { destruct (Z_le_gt_dec e 0) as [He|He].
    - rewrite <- (integer_on_grid k e He). apply round_grid_le.
      by rewrite integer_on_grid.
    - destruct (exponent_positive a Ha) as [Hlow Hbig]; [fold e; lia|].
      fold e in Hlow, Hbig.
      assert (inject_Z (2 ^ 53) <= inject_Z k)%Q as Hk'.
      { rewrite <- pow2_53. eapply Qle_trans; [exact Hbig|]. by eapply Qle_trans. }
      rewrite <- Zle_Qle in Hk'. assert (k = 2 ^ 53)%Z as -> by lia.
      assert (inject_Z (2 ^ 52) * 2 ^ e == inject_Z (2 ^ 53))%Q as Heq.
      { apply Qle_antisym; [by eapply Qle_trans|by rewrite <- pow2_53]. }
      rewrite <- Heq. apply round_grid_le. by rewrite Heq. }
  destruct (Qle_bool _ _) eqn:Hover.
  - apply Qle_bool_iff in Hover.
    assert (inject_Z k < 2 ^ 1024)%Q; [|lra].
    eapply Qle_lt_trans; [rewrite <- Zle_Qle; exact Hk|]. reflexivity.
  - eexists; split; [done|]. by rewrite Qred_correct.
Qed.

(** Python's [x < n] for a float [x] computed by [float_of_Q] and an
    integer [n] of magnitude at most [2 ^ 53]: when it holds, the exact
    value was below [n] already. *)
Lemma float_lt_int_sound x (n : Z) :
  (Z.abs n <= 2 ^ 53)%Z ->
  float_lt_int (float_of_Q x) n = true -> (x < inject_Z n)%Q.
Proof.
  intros Hn Hlt. apply Qnot_le_lt. intros Hle.
  unfold float_of_Q in Hlt.
  destruct (x ?= 0)%Q eqn:Hcmp.
  - apply Qeq_alt in Hcmp. cbn in Hlt. unfold Qltb in Hlt.
    apply negb_true_iff, not_true_iff_false in Hlt. apply Hlt.
    apply Qle_bool_iff. lra.
  - apply Qlt_alt in Hcmp.
    assert (0 < - x)%Q as Hpos by lra.
    destruct (round_magnitude_le (- n) (- x) Hpos) as (r & Hrm & Hr); [lia| |].
    { rewrite inject_Z_opp. lra. }
    rewrite Hrm in Hlt. cbn in Hlt. unfold Qltb in Hlt.
    apply negb_true_iff, not_true_iff_false in Hlt. apply Hlt.
    apply Qle_bool_iff. rewrite inject_Z_opp in Hr. lra.
  - apply Qgt_alt in Hcmp.
    pose proof (round_magnitude_ge n x Hcmp ltac:(lia) Hle) as Hr.
    destruct (round_magnitude x) as [r|]; [|done].
    cbn in Hlt. unfold Qltb in Hlt.
    apply negb_true_iff, not_true_iff_false in Hlt. apply Hlt.
    by apply Qle_bool_iff.
Qed.

Lemma coarser_grid (m e e' : Z) :
  (e' <= e)%Z ->
  (inject_Z (m * 2 ^ (e - e')) * 2 ^ e' == inject_Z m * 2 ^ e)%Q.
Proof.
  intros He. rewrite inject_Z_mult, <- pow2_Z by lia.
  rewrite <- Qmult_assoc, <- pow2_add.
  by replace (e - e' + e')%Z with e by lia.
Qed.

Lemma round_magnitude_exact (m e : Z) a :
  (0 < m < 2 ^ 53)%Z -> (-1074 <= e <= 971)%Z -> (a == inject_Z m * 2 ^ e)%Q ->
  exists r, round_magnitude a = Some r /\ (r == a)%Q.
Proof.
  intros Hm He Ha.
  assert (0 < a)%Q as Hpos.
  { rewrite Ha. apply Qmult_lt_0_compat; [|apply pow2_pos].
    change 0%Q with (inject_Z 0). rewrite <- Zlt_Qlt. lia. }
  assert (a < 2 ^ (53 + e))%Q as Hup.
  { rewrite Ha, pow2_add. apply Qmult_lt_compat_r; [apply pow2_pos|].
    rewrite pow2_53, <- Zlt_Qlt. lia. }
  unfold round_magnitude. set (e' := Z.max (ilog2 a - 52) (-1074)).
  assert (e' <= e)%Z as He'.
  { destruct (ilog2_spec a Hpos) as [Hlow _].
    assert (ilog2 a < 53 + e)%Z; [|lia].
    apply pow2_lt_inv. by eapply Qle_lt_trans. }
  assert (inject_Z (round_half_even (a / 2 ^ e')) * 2 ^ e' == a)%Q as Hr.
  { pose proof (coarser_grid m e e' He') as Hgrid. rewrite <- Ha in Hgrid.
    apply Qle_antisym.
    - rewrite <- Hgrid at 2. apply round_grid_le. rewrite Hgrid. apply Qle_refl.
    - rewrite <- Hgrid at 1. apply round_grid_ge. rewrite Hgrid. apply Qle_refl. }
  destruct (Qle_bool _ _) eqn:Hover.
  - apply Qle_bool_iff in Hover. rewrite Hr in Hover.
    assert (2 ^ (53 + e) <= 2 ^ 1024)%Q by (apply pow2_le; lia). lra.
  - eexists; split; [done|]. by rewrite Qred_correct.
Qed.

(** Turning a value a double can hold into a float changes nothing. *)
Lemma float_of_Q_exact x :
  is_double x -> exists q, float_of_Q x = Finite q /\ (q == x)%Q.
Proof.
  intros (m & e & Hm & He & Hx). unfold float_of_Q.
  assert (0 < 2 ^ e)%Q as Hp by apply pow2_pos.
  destruct (x ?= 0)%Q eqn:Hcmp.
  - apply Qeq_alt in Hcmp. eexists; split; [done|]. by rewrite Hcmp.
  - apply Qlt_alt in Hcmp.
    assert (m < 0)%Z as Hneg.
    { destruct (Z_lt_ge_dec m 0) as [|Hge]; [done|]. exfalso.
      assert (0 <= inject_Z m * 2 ^ e)%Q; [|lra].
      apply Qmult_le_0_compat; [|lra].
      change 0%Q with (inject_Z 0). rewrite <- Zle_Qle. lia. }
    destruct (round_magnitude_exact (- m) e (- x)) as (r & -> & Hr); [lia|done| |].
    { rewrite Hx, inject_Z_opp. ring. }
    eexists; split; [done|]. rewrite Hr. ring.
  - apply Qgt_alt in Hcmp.
    assert (0 < m)%Z as Hposm.
    { destruct (Z_lt_ge_dec 0 m) as [|Hge]; [done|]. exfalso.
      assert (0 <= inject_Z (- m) * 2 ^ e)%Q as Hnn.
      { apply Qmult_le_0_compat; [|lra].
        change 0%Q with (inject_Z 0). rewrite <- Zle_Qle. lia. }
      rewrite inject_Z_opp in Hnn. lra. }
    destruct (round_magnitude_exact m e x) as (r & -> & Hr); [lia|done|done|].
    by eexists.
Qed.

(** ** The two stores obey the laws *)

#[global] Instance FakeRedis_laws : ReplayStoreLaws FakeRedis.
Proof.
  split; cbn; intros.
  - apply lookup_insert_eq.
  - by apply lookup_insert_ne.
Qed.

#[global] Instance TtlStore_laws : ReplayStoreLaws TtlStore.
Proof.
  split; cbn; unfold TtlStore; intros.
  - rewrite lookup_insert_eq.
    by rewrite (proj2 (Qle_bool_iff _ _)) by lra.
  - by rewrite lookup_insert_ne.
Qed.

(** ** Running the middleware symbolically *)

Arguments compare_digest : simpl never.
Arguments generated_signature : simpl never.
Arguments String.append : simpl never.
Arguments Qltb : simpl never.
Arguments has_valid_timestamp : simpl never.

Ltac unfold_mw :=
  unfold handle, signature_check, process_resource, _has_valid_signature,
    _has_valid_request_id, _has_unused_id, _set_id_as_used, _get_redis_key,
    try_pass, emit, set_context, set_is_authentic, set_body, set_media,
    put_redis, get_world, raise, fresh_world in *;
  unfold mbind, M_bind, mret, M_ret in *.

(** The condition the program branches on next. *)
Ltac scrut t :=
  match t with
  | match ?x with _ => _ end => scrut x
  | match ?x with _ => _ end => x
  | ?f _ => scrut f
  end.

Ltac step_in H :=
  lazymatch type of H with
  | ?t = _ => let s := scrut t in destruct s eqn:?; cbn in *
  end.

(** Follow every path of the program recorded in [H : run = (r, w)]. *)
Ltac exec H := unfold_mw; cbn in *; repeat step_in H; simplify_eq; cbn in *.

Section Properties.
Context {Media : Type} {S : Type} `{ReplayStoreLaws S}.
Variable hmac_digest : digestmod -> bytes -> bytes -> bytes.
Variable get_timestamp : string -> option Q.

#[local] Abbreviation run := (handle (Media:=Media) hmac_digest get_timestamp).
#[local] Abbreviation sig_check := (signature_check (Media:=Media) (S:=S) hmac_digest).

(** C6: the store is written exactly when the request is authenticated
    under a configuration that requires the identifier: then there is one
    write, made right after the lookup and before anything else is done
    with the request, of the key made of the nonce prefix (["nonce"] when
    the configuration has none), a dot and the identifier read from the
    header [x-<header>-uuid], with the identifier as value and a lifetime
    of twice the expiry; in every other case (a rejected request, an
    error, a configuration without identifier) there is no write and the
    store is as it was. *)
Theorem mark_used_iff_authenticated self now uuid1 store (req : Request Media) :
  let w := snd (run self now uuid1 store req) in
  if authenticated w && is_uuid_required self then
    exists s rid rest,
      let key := default "nonce" (cfg_nonce_prefix (config self)) ++ "." ++ rid in
      store = Some s /\
      get_header req ("x-" ++ header_name self ++ "-uuid") = Some rid /\
      trace w
        = ([ReadBody; RedisGet key; RedisSet key rid (2 * expiry self)] ++ rest)%list /\
      List.filter is_redis_call rest = [] /\
      List.filter is_redis_set (trace w) = [RedisSet key rid (2 * expiry self)] /\
      redis w = Some (redis_set s now key rid (2 * expiry self))
  else
    List.filter is_redis_set (trace w) = [] /\ redis w = store.
Proof.
  destruct (run self now uuid1 store req) as [r w] eqn:Hrun.
  unfold authenticated. exec Hrun; try done.
  all: rewrite bool_decide_eq_true_2 by done; cbn.
  all: rewrite (Z.mul_comm (expiry self) 2).
  all: eexists _, _, _; split_and!; try done.
Qed.

(** The signature check leaves the state alone and does not look at it. *)
Lemma has_valid_signature_pure self (req : Request Media) (w : world Media S) :
  _has_valid_signature hmac_digest self (bounded_stream req)
    (get_header req (uuid_header self)) (get_header req (signature_header self)) w
  = (sig_check self req, w).
Proof.
  unfold signature_check, _has_valid_signature, mbind, M_bind, mret, M_ret, raise.
  destruct (is_uuid_required self);
    [destruct (get_header req (uuid_header self))|]; cbn; try done.
  all: destruct (cfg_secret (config self)); cbn; try done.
  all: by destruct (compare_digest _ _).
Qed.

(** In hexadecimal mode the reference signature passes the check. *)
Lemma hex_signature_check self (req : Request Media) secret :
  digest self <> "base64" ->
  cfg_secret (config self) = Some secret ->
  (is_uuid_required self = true -> get_header req (uuid_header self) <> None) ->
  of_header (get_header req (signature_header self))
    = reference_signature hmac_digest self secret
        (if is_uuid_required self then get_header req (uuid_header self) else None)
        (bounded_stream req) ->
  sig_check self req = Ok true.
Proof.
  intros Hd Hs Hid Hsig. unfold signature_check, _has_valid_signature.
  unfold mbind, M_bind, mret, M_ret, raise. cbn.
  unfold reference_signature in Hsig.
  destruct (is_uuid_required self).
  - destruct (get_header req (uuid_header self)) as [rid|]; [|by destruct Hid].
    cbn. rewrite Hs, Hsig. unfold generated_signature.
    rewrite bool_decide_eq_false_2 by done.
    by rewrite compare_digest_hex_refl.
  - cbn. rewrite Hs, Hsig. unfold generated_signature.
    rewrite bool_decide_eq_false_2 by done.
    by rewrite compare_digest_hex_refl.
Qed.

(** C7: when the identifier is not required, the store is neither read
    nor written, and a negative verdict only ever comes from a signature
    that does not match, never from the identifier header, absent or not.
    A POST whose signature check succeeds is authenticated; under a
    hexadecimal digest that is the case of the HMAC of the body alone.
    Under the base64 digest, the default, no signature header is accepted,
    the HMAC of the body included: the comparison of [bytes] with [str]
    raises [TypeError] before any verdict. *)
Theorem no_identifier_no_store self now uuid1 store (req : Request Media) :
  is_uuid_required self = false ->
  let out := run self now uuid1 store req in
  List.filter is_redis_call (trace (snd out)) = [] /\
  redis (snd out) = store /\
  (method req = "POST" -> sig_check self req = Ok true ->
     authenticated (snd out) = true) /\
  (forall secret,
     method req = "POST" -> digest self <> "base64" ->
     cfg_secret (config self) = Some secret ->
     of_header (get_header req (signature_header self))
       = reference_signature hmac_digest self secret None (bounded_stream req) ->
     authenticated (snd out) = true) /\
  (req_is_authentic (snd out) = Some false -> sig_check self req = Ok false) /\
  (forall secret sig,
     method req = "POST" -> digest self = "base64" ->
     cfg_secret (config self) = Some secret ->
     get_header req (signature_header self) = Some sig ->
     fst out = Raise TypeError /\ req_is_authentic (snd out) = None).
Proof.
  intros Hreq out.
  assert (method req = "POST" -> sig_check self req = Ok true ->
          authenticated (snd out) = true) as Hmatch.
  { subst out.
    destruct (run self now uuid1 store req) as [r w] eqn:Hrun.
    unfold authenticated. exec Hrun; try done.
    all: intros; simplify_eq.
    all: by rewrite bool_decide_eq_true_2 in * by done. }
  assert (forall secret,
            method req = "POST" -> digest self <> "base64" ->
            cfg_secret (config self) = Some secret ->
            of_header (get_header req (signature_header self))
              = reference_signature hmac_digest self secret None
                  (bounded_stream req) ->
            authenticated (snd out) = true) as Hhex.
  { intros secret Hm Hd Hs Hsig. apply Hmatch; [done|].
    apply (hex_signature_check self req secret); try done; by rewrite Hreq. }
  assert (forall secret sig,
            method req = "POST" -> digest self = "base64" ->
            cfg_secret (config self) = Some secret ->
            get_header req (signature_header self) = Some sig ->
            fst out = Raise TypeError /\ req_is_authentic (snd out) = None)
    as Hb64.
  { intros secret sig Hm Hd Hs Hsig. subst out.
    destruct (run self now uuid1 store req) as [r w] eqn:Hrun.
    unfold_mw. unfold generated_signature in Hrun.
    rewrite Hs, Hsig, Hd, Hm, Hreq in Hrun.
    rewrite !(bool_decide_eq_true_2 ("base64" = "base64")) in Hrun by done.
    rewrite (bool_decide_eq_true_2 ("POST" = "POST")) in Hrun by done.
    cbn in Hrun. unfold compare_digest in Hrun. by simplify_eq. }
  split_and!; [| |done|done| |done].
  all: subst out; clear Hmatch Hhex Hb64.
  all: destruct (run self now uuid1 store req) as [r w] eqn:Hrun.
  all: exec Hrun; try done.
Qed.


(** The freshness test against the exact difference: an accepted
    timestamp is less than [expiry] seconds old when the expiry is an
    integer a double holds exactly, and the test is the exact comparison
    when the difference is a value a double can hold. *)
Lemma has_valid_timestamp_sound self now timestamp :
  (Z.abs (expiry self) <= 2 ^ 53)%Z ->
  has_valid_timestamp self now timestamp = true ->
  (now - timestamp < inject_Z (expiry self))%Q.
Proof. apply float_lt_int_sound. Qed.

Lemma has_valid_timestamp_exact self now timestamp :
  is_double (now - timestamp) ->
  has_valid_timestamp self now timestamp = true
  <-> (now - timestamp < inject_Z (expiry self))%Q.
Proof.
  intros (q & Hq & Heq)%float_of_Q_exact.
  unfold has_valid_timestamp, float_sub. rewrite Hq. cbn.
  by rewrite Qltb_true, Heq.
Qed.

(** C3: with the timestamp extracted and a store at hand, the identifier
    check answers [True] exactly when the difference [now - timestamp],
    computed in double precision, is below [expiry] and the identifier is
    unused. When [expiry] is at most [2 ^ 53], an identifier whose
    timestamp is [expiry] seconds in the past, or more, is refused. When
    the difference is a value a double can hold, so that the subtraction
    does not round, the check is the exact comparison: at
    [expiry - eps] seconds in the past for any [eps > 0], unused, it
    answers [True]. *)
Theorem validate_strict_freshness
    self now rid timestamp store (w : world Media S) :
  redis w = Some store ->
  get_timestamp rid = Some timestamp ->
  exists b w',
    _has_valid_request_id get_timestamp self now (Some rid) w = (Ok b, w') /\
    (b = true <->
       float_lt_int (float_sub now timestamp) (expiry self) = true /\
       redis_get store now (redis_key self rid) = None) /\
    ((Z.abs (expiry self) <= 2 ^ 53)%Z ->
     (inject_Z (expiry self) <= now - timestamp)%Q -> b = false) /\
    (is_double (now - timestamp) ->
       (b = true <->
          (now - timestamp < inject_Z (expiry self))%Q /\
          redis_get store now (redis_key self rid) = None) /\
       (forall eps, (0 < eps)%Q ->
          (now - timestamp == inject_Z (expiry self) - eps)%Q ->
          redis_get store now (redis_key self rid) = None -> b = true)).
Proof.
  intros Hstore Hts. unfold_mw. cbn. rewrite Hts, Hstore. cbn.
  eexists _, _. split; [reflexivity|].
  rewrite andb_true_iff, bool_decide_eq_true.
  split; [done|]. split.
  - intros Hbound Hexp. apply andb_false_iff. left.
    apply not_true_iff_false. intros Hf%has_valid_timestamp_sound; [lra|done].
  - intros Hd. split.
    + by rewrite has_valid_timestamp_exact.
    + intros eps Heps Heq Hun. apply andb_true_iff. split.
      * apply has_valid_timestamp_exact; [done|lra].
      * by apply bool_decide_eq_true.
Qed.

(** C4: a request that is not a POST and carries no signature is not let
    through: its body is read and the signature check then fails with an
    internal error, before any verdict is written. *)
Theorem unsigned_non_post_fails self now uuid1 store (req : Request Media) :
  method req <> "POST" ->
  get_header req (signature_header self) = None ->
  exists e w,
    run self now uuid1 store req = (Raise e, w) /\
    (e = AttributeError \/ e = ValueError \/ e = TypeError) /\
    trace w = [ReadBody] /\ req_is_authentic w = None.
Proof.
  intros Hm Hsig.
  destruct (run self now uuid1 store req) as [r w] eqn:Hrun.
  unfold_mw. rewrite Hsig in Hrun. cbn in Hrun.
  repeat step_in Hrun; simplify_eq; cbn; eauto 10.
  all: try match goal with
       | Hc : compare_digest _ PyNone = _ |- _ =>
           rewrite compare_digest_none in Hc; simplify_eq; eauto 10
       end.
  by rewrite andb_false_r in *.
Qed.

(** C1: under the base64 digest (the default) no signature header is
    accepted, the reference signature included: the generated signature
    is [bytes], the header is [str], and comparing them raises
    [TypeError] before a verdict is written. *)
Theorem base64_signature_raises
    self now uuid1 store (req : Request Media) secret sig :
  digest self = "base64" ->
  method req = "POST" ->
  cfg_secret (config self) = Some secret ->
  get_header req (signature_header self) = Some sig ->
  (is_uuid_required self = true -> get_header req (uuid_header self) <> None) ->
  exists w,
    run self now uuid1 store req = (Raise TypeError, w) /\
    authenticated w = false /\ req_is_authentic w = None /\ redis w = store.
Proof.
  intros Hd Hm Hs Hsig Hid.
  destruct (run self now uuid1 store req) as [r w] eqn:Hrun.
  unfold_mw. unfold authenticated, generated_signature in *.
  rewrite Hs, Hsig, Hd, Hm in Hrun.
  rewrite !(bool_decide_eq_true_2 ("base64" = "base64")) in Hrun by done.
  rewrite (bool_decide_eq_true_2 ("POST" = "POST")) in Hrun by done.
  cbn in Hrun.
  destruct (is_uuid_required self).
  - destruct (get_header req (uuid_header self)); [|by destruct Hid].
    cbn in Hrun. unfold compare_digest in Hrun. simplify_eq. eauto.
  - cbn in Hrun. unfold compare_digest in Hrun. simplify_eq. eauto.
Qed.

(** In hexadecimal mode the reference construction is accepted: the
    signed request of a fresh, unused identifier is authenticated. *)
Lemma hex_signature_accepted
    self now uuid1 s (req : Request Media) rid timestamp :
  is_uuid_required self = true ->
  method req = "POST" ->
  sig_check self req = Ok true ->
  get_header req (uuid_header self) = Some rid ->
  get_timestamp rid = Some timestamp ->
  has_valid_timestamp self now timestamp = true ->
  redis_get s now (redis_key self rid) = None ->
  authenticated (snd (run self now uuid1 (Some s) req)) = true.
Proof.
  intros Hreq Hm Hsig Hid Hts Hfresh Hun.
  destruct (run self now uuid1 (Some s) req) as [r w] eqn:Hrun.
  unfold authenticated. unfold_mw.
  rewrite (bool_decide_eq_true_2 _ Hm) in Hrun.
  rewrite Hreq, Hid in *. cbn in *. rewrite Hts in Hrun. cbn in *.
  repeat step_in Hrun; simplify_eq; cbn in *; try done.
  all: by rewrite Hun, Hfresh, !bool_decide_eq_true_2 in * by done.
Qed.

(** The round trip in hexadecimal mode: a POST that carries the reference
    signature over a fresh, unused identifier and the body is
    authenticated. *)
Lemma hex_round_trip
    self now uuid1 s (req : Request Media) secret rid timestamp :
  digest self <> "base64" ->
  is_uuid_required self = true ->
  method req = "POST" ->
  cfg_secret (config self) = Some secret ->
  get_header req (uuid_header self) = Some rid ->
  of_header (get_header req (signature_header self))
    = reference_signature hmac_digest self secret (Some rid) (bounded_stream req) ->
  get_timestamp rid = Some timestamp ->
  has_valid_timestamp self now timestamp = true ->
  redis_get s now (redis_key self rid) = None ->
  authenticated (snd (run self now uuid1 (Some s) req)) = true.
Proof.
  intros Hd Hreq Hm Hs Hid Hsig Hts Hfresh Hun.
  apply (hex_signature_accepted self now uuid1 s req rid timestamp); try done.
  apply (hex_signature_check self req secret); try done.
  - by rewrite Hid.
  - by rewrite Hreq, Hid.
Qed.

(** The signature check in hexadecimal mode is the comparison of the
    header with the text the middleware generates. *)
Lemma signature_check_hex self (req : Request Media) secret sg :
  digest self <> "base64" ->
  cfg_secret (config self) = Some secret ->
  (is_uuid_required self = true -> get_header req (uuid_header self) <> None) ->
  get_header req (signature_header self) = Some sg ->
  sig_check self req
  = compare_digest
      (reference_signature hmac_digest self secret
         (if is_uuid_required self then get_header req (uuid_header self)
          else None) (bounded_stream req))
      (PyStr sg).
Proof.
  intros Hd Hs Hid Hsig.
  unfold signature_check, _has_valid_signature, reference_signature.
  unfold mbind, M_bind, mret, M_ret, raise. rewrite Hs, Hsig.
  destruct (is_uuid_required self);
    [destruct (get_header req (uuid_header self)); [|by destruct Hid]|].
  all: cbn; by destruct (compare_digest _ _).
Qed.

(** A signature header in ASCII that is not the expected text fails the
    check in hexadecimal mode. *)
Lemma bad_hex_signature self (req : Request Media) secret sg :
  digest self <> "base64" ->
  cfg_secret (config self) = Some secret ->
  (is_uuid_required self = true -> get_header req (uuid_header self) <> None) ->
  get_header req (signature_header self) = Some sg ->
  is_ascii sg = true ->
  PyStr sg
    <> reference_signature hmac_digest self secret
         (if is_uuid_required self then get_header req (uuid_header self) else None)
         (bounded_stream req) ->
  sig_check self req = Ok false.
Proof.
  intros Hd Hs Hid Hsig Hascii Hne.
  rewrite (signature_check_hex self req secret sg) by done.
  unfold reference_signature, generated_signature in *.
  rewrite (bool_decide_eq_false_2 _ Hd) in *.
  unfold compare_digest. rewrite hexlify_is_ascii, Hascii. cbn.
  rewrite bool_decide_eq_false_2; [done|]. congruence.
Qed.

(** What a rejection does to the request and to the caller. *)
Lemma rejected_outcome self now uuid1 store (req : Request Media) :
  method req = "POST" ->
  rejected hmac_digest get_timestamp self now store req ->
  exists w,
    run self now uuid1 store req = (Raise HTTPForbidden, w) /\
    req_is_authentic w = Some false /\
    req_context w !! (header_name self ++ "-authenticated")
      = Some (CtxBool false) /\
    redis w = store.
Proof.
  intros Hm Hrej.
  destruct (run self now uuid1 store req) as [r w] eqn:Hrun.
  destruct Hrej as [Hsig | s rid ts Hsig Hreq Hst Hid Hts Hexp
                         | s rid ts Hsig Hreq Hst Hid Hts Hused].
  all: unfold_mw; rewrite (bool_decide_eq_true_2 _ Hm) in Hrun.
  - repeat step_in Hrun; simplify_eq; cbn in *; try done.
    all: eexists; split; [reflexivity|]; cbn.
    all: by rewrite lookup_insert_eq.
  - rewrite Hreq, Hid, Hst in *. cbn in *. rewrite Hts in Hrun. cbn in *.
    repeat step_in Hrun; simplify_eq; cbn in *; try done.
    all: try (eexists; split; [reflexivity|]; cbn; by rewrite lookup_insert_eq).
    all: by rewrite Hexp in *.
  - rewrite Hreq, Hid, Hst in *. cbn in *. rewrite Hts in Hrun. cbn in *.
    repeat step_in Hrun; simplify_eq; cbn in *; try done.
    all: try (eexists; split; [reflexivity|]; cbn; by rewrite lookup_insert_eq).
    all: by rewrite (bool_decide_eq_false_2 _ Hused), andb_false_r in *.
Qed.

(** C5, as the code has it. On a POST under a hexadecimal digest with a
    secret configured, each failure the checks find is recorded on the
    request as a negative verdict and then raised as
    [falcon.HTTPForbidden], with the store untouched: a bad signature (a
    signature header in ASCII other than the expected HMAC, the
    identifier header being present when it is required), and, under the
    expected signature, with a store supplied and an identifier that
    yields a timestamp, an identifier that fails the freshness test or
    that the store already holds. A missing secret raises [ValueError]
    before any verdict is written, on every request that is processed (a
    POST, or a request without signature header) and bears the identifier
    header when it is required. *)
Theorem rejection_raises_forbidden self now uuid1 store (req : Request Media) :
  let refused :=
    exists w,
      run self now uuid1 store req = (Raise HTTPForbidden, w) /\
      req_is_authentic w = Some false /\
      req_context w !! (header_name self ++ "-authenticated")
        = Some (CtxBool false) /\
      redis w = store in
  (forall secret,
     method req = "POST" -> digest self <> "base64" ->
     cfg_secret (config self) = Some secret ->
     let expected :=
       reference_signature hmac_digest self secret
         (if is_uuid_required self then get_header req (uuid_header self)
          else None) (bounded_stream req) in
     (forall sg,
        (is_uuid_required self = true ->
         get_header req (uuid_header self) <> None) ->
        get_header req (signature_header self) = Some sg ->
        is_ascii sg = true -> PyStr sg <> expected -> refused) /\
     (forall s rid timestamp,
        is_uuid_required self = true -> store = Some s ->
        get_header req (uuid_header self) = Some rid ->
        of_header (get_header req (signature_header self)) = expected ->
        get_timestamp rid = Some timestamp ->
        has_valid_timestamp self now timestamp = false \/
        redis_get s now (redis_key self rid) <> None ->
        refused)) /\
  (cfg_secret (config self) = None ->
   method req = "POST" \/ get_header req (signature_header self) = None ->
   (is_uuid_required self = true -> get_header req (uuid_header self) <> None) ->
   exists w,
     run self now uuid1 store req = (Raise ValueError, w) /\
     req_is_authentic w = None).
Proof.
  intros refused. subst refused. split.
  - intros secret Hm Hd Hs expected. subst expected. split.
    + intros sg Hid Hsig Hascii Hne. apply rejected_outcome; [done|].
      apply bad_signature. by apply (bad_hex_signature self req secret sg).
    + intros s rid ts Hreq Hst Hid Hsig Hts Hwhy.
      assert (sig_check self req = Ok true) as Hcheck.
      { apply (hex_signature_check self req secret); try done.
        by rewrite Hid. }
      apply rejected_outcome; [done|].
      destruct Hwhy as [Hexp|Hused].
      * by eapply expired_identifier.
      * by eapply reused_identifier.
  - intros Hs Hproc Hid.
    destruct (run self now uuid1 store req) as [r w] eqn:Hrun.
    unfold_mw. rewrite Hs in Hrun.
    destruct (is_uuid_required self);
      [destruct (get_header req (uuid_header self)); [|by destruct Hid]|].
    all: cbn in Hrun.
    all: step_in Hrun; simplify_eq; [|by eauto].
    all: match goal with
         | Hc : _ && _ = true |- _ => apply andb_true_iff in Hc as [Hc1 Hc2]
         end.
    all: apply negb_true_iff, bool_decide_eq_false in Hc1.
    all: apply bool_decide_eq_true in Hc2; by destruct Hproc.
Qed.

(** C10, as the code has it: with a store supplied no call ends in
    [AssertionError]; without one, under a configuration that requires
    the identifier and a hexadecimal digest, a POST request that bears the
    expected signature and an identifier that yields a timestamp ends in
    [AssertionError] with no verdict written. *)
Theorem store_assertions self now uuid1 store (req : Request Media) :
  (forall s, store = Some s ->
     fst (run self now uuid1 store req) <> Raise AssertionError) /\
  (forall secret rid timestamp,
     store = None -> is_uuid_required self = true ->
     method req = "POST" -> digest self <> "base64" ->
     cfg_secret (config self) = Some secret ->
     get_header req (uuid_header self) = Some rid ->
     of_header (get_header req (signature_header self))
       = reference_signature hmac_digest self secret (Some rid)
           (bounded_stream req) ->
     get_timestamp rid = Some timestamp ->
     exists w,
       run self now uuid1 store req = (Raise AssertionError, w) /\
       req_is_authentic w = None).
Proof.
  split.
  - intros s ->.
    destruct (run self now uuid1 (Some s) req) as [r w] eqn:Hrun.
    exec Hrun; try done.
    all: unfold compare_digest in *; repeat case_match; by simplify_eq.
  - intros secret rid ts -> Hreq Hm Hd Hs Hid Hsig Hts.
    assert (sig_check self req = Ok true) as Hcheck.
    { apply (hex_signature_check self req secret); try done.
      - by rewrite Hid.
      - by rewrite Hreq, Hid. }
    destruct (run self now uuid1 None req) as [r w] eqn:Hrun.
    unfold_mw. rewrite (bool_decide_eq_true_2 _ Hm) in Hrun.
    rewrite Hreq, Hid in *. cbn in *. rewrite Hts in Hrun. cbn in *.
    repeat step_in Hrun; simplify_eq; cbn in *; try done.
    all: eauto.
Qed.

(** ** The life of an identifier in the store *)

(** What an authenticated request tells about its input. *)
Lemma authenticated_inv self now uuid1 store (req : Request Media) :
  is_uuid_required self = true ->
  authenticated (snd (run self now uuid1 store req)) = true ->
  exists s rid timestamp,
    store = Some s /\ method req = "POST" /\ sig_check self req = Ok true /\
    get_header req (uuid_header self) = Some rid /\
    get_timestamp rid = Some timestamp /\
    has_valid_timestamp self now timestamp = true /\
    redis_get s now (redis_key self rid) = None /\
    redis (snd (run self now uuid1 store req))
      = Some (redis_set s now (redis_key self rid) rid (expiry self * 2)).
Proof.
  intros Hreq.
  destruct (run self now uuid1 store req) as [r w] eqn:Hrun.
  unfold authenticated. exec Hrun; intros Ha; try done.
  all: match goal with
       | Hc : _ && _ = true |- _ => apply andb_true_iff in Hc as [Hf Hu]
       end.
  all: apply bool_decide_eq_true in Hu.
  all: match goal with
       | Hp : negb (bool_decide (method _ = "POST")) && _ = false |- _ =>
           apply andb_false_iff in Hp as [Hp|Hp];
           [apply negb_false_iff, bool_decide_eq_true in Hp
           |apply bool_decide_eq_false in Hp]
       end.
  all: try by eauto 12.
  all: destruct (get_header req (signature_header self)) eqn:Hsig;
    [by match goal with Hn : ¬ _ |- _ => destruct Hn end|].
  all: by rewrite compare_digest_none in *.
Qed.

(** A call either leaves the store as it was or records an identifier
    that was unused at that moment. *)
Lemma store_after self now uuid1 store (req : Request Media) :
  redis (snd (run self now uuid1 store req)) = store \/
  exists s rid,
    store = Some s /\ redis_get s now (redis_key self rid) = None /\
    authenticated (snd (run self now uuid1 store req)) = true /\
    redis (snd (run self now uuid1 store req))
      = Some (redis_set s now (redis_key self rid) rid (expiry self * 2)).
Proof.
  destruct (run self now uuid1 store req) as [r w] eqn:Hrun.
  unfold authenticated. exec Hrun; try by left.
  all: right.
  all: match goal with
       | Hc : _ && _ = true |- _ => apply andb_true_iff in Hc as [Hf Hu]
       end.
  all: apply bool_decide_eq_true in Hu.
  all: eexists _, _; split_and!; try done.
Qed.

(** A request bearing an identifier that the store holds is never
    authenticated and does not change the store. *)
Lemma used_not_authenticated self now uuid1 s (req : Request Media) rid :
  is_uuid_required self = true ->
  get_header req (uuid_header self) = Some rid ->
  redis_get s now (redis_key self rid) <> None ->
  authenticated (snd (run self now uuid1 (Some s) req)) = false /\
  redis (snd (run self now uuid1 (Some s) req)) = Some s.
Proof.
  intros Hreq Hid Hused.
  destruct (authenticated (snd (run self now uuid1 (Some s) req))) eqn:Ha.
  - apply authenticated_inv in Ha as (s' & rid' & ts & ? & _ & _ & ? & _ & _ & ? & _);
      [|done].
    by simplify_eq.
  - split; [done|].
    destruct (store_after self now uuid1 (Some s) req)
      as [Hsame | (s' & rid' & _ & _ & Ha' & _)]; [done|].
    by rewrite Ha in Ha'.
Qed.

Lemma used_preserved self now uuid1 s (req : Request Media) key from to :
  used_during s key from to -> (from <= now)%Q -> (now < to)%Q ->
  exists s',
    redis (snd (run self now uuid1 (Some s) req)) = Some s' /\
    used_during s' key from to.
Proof.
  intros Hused Hfrom Hto.
  destruct (store_after self now uuid1 (Some s) req)
    as [-> | (s0 & rid & ? & Hnone & _ & ->)]; [by eauto|].
  simplify_eq. eexists; split; [done|].
  intros t Ht1 Ht2. rewrite get_set_other; [by apply Hused|].
  intros <-. by apply (Hused now).
Qed.

Lemma serve_used self (calls : list (Call Media)) : forall s key from to,
  used_during s key from to ->
  Forall (fun c => (from <= call_time c)%Q /\ (call_time c < to)%Q) calls ->
  exists s',
    serve (Media:=Media) hmac_digest get_timestamp self (Some s) calls = Some s' /\
    used_during s' key from to.
Proof.
  induction calls as [|c calls IH]; intros s key from to Hused Hall.
  - by eauto.
  - apply Forall_cons in Hall as [[Hfrom Hto] Hall]. cbn.
    destruct (used_preserved self (call_time c) (call_uuid1 c) s
                (call_request c) key from to) as (s' & -> & Hused'); try done.
    by apply IH.
Qed.

(** C2: once a request bearing an identifier has been authenticated, the
    identifier, unused until then, stays recorded in the store for the
    whole retention window of twice the expiry, whatever other calls are
    served in that window; a later call in the window that presents the
    same identifier is not authenticated and does not change the store,
    whatever its signature and timestamp; and the same request sent again
    is marked not authentic and refused. *)
Theorem used_identifier_rejected
    self store t1 u1 (r1 : Request Media) rid
    (calls : list (Call Media)) t2 u2 r2 :
  is_uuid_required self = true ->
  get_header r1 (uuid_header self) = Some rid ->
  authenticated (snd (run self t1 u1 store r1)) = true ->
  Forall (fun c => (t1 <= call_time c)%Q /\
                   (call_time c < t1 + inject_Z (2 * expiry self))%Q) calls ->
  get_header r2 (uuid_header self) = Some rid ->
  (t1 <= t2)%Q -> (t2 < t1 + inject_Z (2 * expiry self))%Q ->
  let used :=
    serve hmac_digest get_timestamp self
          (redis (snd (run self t1 u1 store r1))) calls in
  let out := run self t2 u2 used r2 in
  (exists s, store = Some s /\ redis_get s t1 (redis_key self rid) = None) /\
  (exists s2, used = Some s2 /\
              used_during s2 (redis_key self rid) t1
                          (t1 + inject_Z (2 * expiry self))) /\
  authenticated (snd out) = false /\
  redis (snd out) = used /\
  (r2 = r1 ->
     fst out = Raise HTTPForbidden /\ req_is_authentic (snd out) = Some false).
Proof.
  intros Hreq Hid1 Hauth Hcalls Hid2 Hle Hlt used out. subst used out.
  apply authenticated_inv in Hauth
    as (s & rid' & ts & -> & Hm & Hsig & Hid & Hts & Hfresh & Hun & ->); [|done].
  rewrite Hid1 in Hid. simplify_eq.
  destruct (serve_used self calls
              (redis_set s t1 (redis_key self rid') rid' (expiry self * 2))
              (redis_key self rid') t1 (t1 + inject_Z (2 * expiry self)))
    as (s2 & -> & Hused); [|done|].
  { intros t Ht1 Ht2. rewrite get_set_same; [done|done|].
    by rewrite Z.mul_comm. }
  destruct (used_not_authenticated self t2 u2 s2 r2 rid') as [Hno Hsame];
    [done|done|by apply Hused|].
  split_and!; [by eauto|by eauto|done|done|].
  intros ->.
  destruct (rejected_outcome self t2 u2 (Some s2) r1) as (w & -> & ? & _);
    [done| |done].
  eapply reused_identifier; [done..|]. by apply Hused.
Qed.

End Properties.

(** * Further properties of the middleware *)

Section MoreProperties.
Context {Media : Type} {S : Type} `{ReplayStoreLaws S}.
Variable hmac_digest : digestmod -> bytes -> bytes -> bytes.
Variable get_timestamp : string -> option Q.

#[local] Abbreviation run := (handle (Media:=Media) hmac_digest get_timestamp).
#[local] Abbreviation sig_check := (signature_check (Media:=Media) (S:=S) hmac_digest).

(** X1: under one configuration two identifiers are recorded under the
    same key only if they are the same identifier. *)
Theorem redis_key_inj self rid1 rid2 :
  redis_key self rid1 = redis_key self rid2 -> rid1 = rid2.
Proof.
  unfold redis_key. intros Heq.
  apply (inj (String.app _)) in Heq.
  by apply (inj (String.app ".")) in Heq.
Qed.

(** X2: a request that is not a POST and bears a signature header, whatever
    its value, is let through unverified: the call returns at once, the
    body is not read, the store is not asked and nothing is written on the
    request, not even a verdict. Every other request has its body read
    exactly once, before anything else, whatever the outcome. *)
Theorem body_read_unless_passed_through
    self now uuid1 store (req : Request Media) :
  let out := run self now uuid1 store req in
  (method req <> "POST" /\ get_header req (signature_header self) <> None ->
     out = (Ok tt, fresh_world store)) /\
  (method req = "POST" \/ get_header req (signature_header self) = None ->
     exists rest, trace (snd out) = ReadBody :: rest /\ ~ In ReadBody rest).
Proof.
  intros out. subst out. split.
  - intros [Hm Hsig]. unfold handle, process_resource.
    by rewrite (bool_decide_eq_false_2 _ Hm), (bool_decide_eq_true_2 _ Hsig).
  - intros Hproc.
    destruct (run self now uuid1 store req) as [r w] eqn:Hrun.
    exec Hrun.
    all: try (eexists; split; [reflexivity|]; cbn; intros Hin;
              repeat (destruct Hin as [Hin|Hin]; [discriminate Hin|]); done).
    match goal with
    | Hc : _ && _ = true |- _ => apply andb_true_iff in Hc as [Hc1 Hc2]
    end.
    apply negb_true_iff, bool_decide_eq_false in Hc1.
    apply bool_decide_eq_true in Hc2. by destruct Hproc.
Qed.

(** X3: the call never returns normally with a negative verdict. When it
    returns, either the request was let through untouched (not a POST,
    signature header present) or it is marked authentic with its body
    attached; on a POST a normal return means authenticated. *)
Theorem normal_return_means_authenticated
    self now uuid1 store (req : Request Media) :
  let out := run self now uuid1 store req in
  fst out = Ok tt ->
  (method req <> "POST" /\ get_header req (signature_header self) <> None /\
   snd out = fresh_world store) \/
  (req_is_authentic (snd out) = Some true /\
   req_body (snd out) = Some (bounded_stream req)).
Proof.
  intros out Hok. subst out.
  destruct (run self now uuid1 store req) as [r w] eqn:Hrun.
  cbn in Hok. subst r. exec Hrun; try by right.
  left.
  match goal with
  | Hc : _ && _ = true |- _ => apply andb_true_iff in Hc as [Hc1 Hc2]
  end.
  apply negb_true_iff, bool_decide_eq_false in Hc1.
  apply bool_decide_eq_true in Hc2. done.
Qed.

(** X4: what is written in [req.context] always agrees with the attribute
    [req.is_authentic]: without a verdict the context is empty, and with a
    verdict it holds exactly the two entries [<header>-authenticated], the
    verdict, and [<header>-uuid], the identifier header as received. *)
Theorem context_matches_verdict self now uuid1 store (req : Request Media) :
  let w := snd (run self now uuid1 store req) in
  match req_is_authentic w with
  | None => req_context w = ∅
  | Some b =>
      req_context w
      = <[header_name self ++ "-authenticated" := CtxBool b]>
          (<[header_name self ++ "-uuid"
               := CtxId (get_header req (uuid_header self))]> ∅)
  end.
Proof.
  destruct (run self now uuid1 store req) as [r w] eqn:Hrun.
  exec Hrun; try done.
  all: by rewrite ?andb_false_r.
Qed.

(** X5: the identifier [uuid1()] would make is never used: the whole
    outcome of a call is the same whatever that identifier is. The branch
    that assigns it (a required identifier that is absent) lies behind the
    signature check, which has already failed on the absent identifier. *)
Theorem uuid1_is_never_used self now uuid1 uuid1' store (req : Request Media) :
  run self now uuid1 store req = run self now uuid1' store req.
Proof.
  destruct (run self now uuid1 store req) as [r w] eqn:Hrun.
  destruct (run self now uuid1' store req) as [r' w'] eqn:Hrun'.
  unfold_mw; cbn in *.
  repeat step_in Hrun; rewrite ?andb_false_r in *; cbn in *; by simplify_eq.
Qed.

(** X6: the store is asked only once the signature check has succeeded. A
    call makes no store call at all, or one lookup, or one lookup followed
    by one write of the same key; a lookup is made only under a
    configuration that requires the identifier, for the key of the
    identifier header, after the signature check has answered [True]. *)
Theorem store_calls_follow_signature
    self now uuid1 store (req : Request Media) :
  let w := snd (run self now uuid1 store req) in
  List.filter is_redis_call (trace w) = [] \/
  exists rid,
    is_uuid_required self = true /\ sig_check self req = Ok true /\
    get_header req (uuid_header self) = Some rid /\
    (List.filter is_redis_call (trace w) = [RedisGet (redis_key self rid)] \/
     List.filter is_redis_call (trace w)
       = [RedisGet (redis_key self rid);
          RedisSet (redis_key self rid) rid (expiry self * 2)]).
Proof.
  destruct (run self now uuid1 store req) as [r w] eqn:Hrun.
  exec Hrun; try by left.
  all: right; eexists; split_and!; try done; by eauto.
Qed.

(** X7: the body and the parsed media are attached to the request only when
    it is authenticated: [req.body] is set exactly on authenticated
    requests, to the bytes read from the stream, and [req._media] is set
    only to what the media handler made of those bytes. *)
Theorem body_attached_iff_authenticated
    self now uuid1 store (req : Request Media) :
  let w := snd (run self now uuid1 store req) in
  (authenticated w = true -> req_body w = Some (bounded_stream req)) /\
  (authenticated w = false -> req_body w = None /\ req_media w = None) /\
  (forall media, req_media w = Some media ->
     exists deserialize,
       media_handler req = Some deserialize /\
       deserialize (bounded_stream req) = Some media).
Proof.
  destruct (run self now uuid1 store req) as [r w] eqn:Hrun.
  unfold authenticated. exec Hrun.
  all: split_and!; try done.
  all: intros; simplify_eq; eauto.
Qed.


(** An authenticated request is a POST that passed the signature check. *)
Lemma authenticated_signature self now uuid1 store (req : Request Media) :
  authenticated (snd (run self now uuid1 store req)) = true ->
  method req = "POST" /\ sig_check self req = Ok true.
Proof.
  destruct (run self now uuid1 store req) as [r w] eqn:Hrun.
  unfold authenticated. exec Hrun; intros Ha; try done.
  all: match goal with
       | Hp : negb (bool_decide (method _ = "POST")) && _ = false |- _ =>
           apply andb_false_iff in Hp as [Hp|Hp];
           [apply negb_false_iff, bool_decide_eq_true in Hp
           |apply bool_decide_eq_false in Hp]
       end.
  all: try done.
  all: destruct (get_header req (signature_header self)) eqn:Hsig;
    [by match goal with Hn : ¬ _ |- _ => destruct Hn end|].
  all: by rewrite compare_digest_none in *.
Qed.


(** X9: under a configuration that requires the identifier, a request is
    authenticated only if a store was supplied, the identifier header is
    present and yields a timestamp, the timestamp passes the freshness
    test (so that it is less than [expiry] seconds old, for an expiry of
    at most [2 ^ 53]) and the store does not hold the identifier at that
    moment. *)
Theorem authenticated_only_if_fresh_and_unused
    self now uuid1 store (req : Request Media) :
  is_uuid_required self = true ->
  authenticated (snd (run self now uuid1 store req)) = true ->
  exists s rid timestamp,
    store = Some s /\
    get_header req (uuid_header self) = Some rid /\
    get_timestamp rid = Some timestamp /\
    has_valid_timestamp self now timestamp = true /\
    ((Z.abs (expiry self) <= 2 ^ 53)%Z ->
     (now - timestamp < inject_Z (expiry self))%Q) /\
    redis_get s now (redis_key self rid) = None.
Proof.
  intros Hreq Ha.
  apply (authenticated_inv hmac_digest get_timestamp) in Ha
    as (s & rid & ts & ? & _ & _ & ? & ? & Hf & ? & _); [|done].
  eexists s, rid, ts. split_and!; try done.
  intros Hbound. by apply has_valid_timestamp_sound.
Qed.

(** X10: in hexadecimal mode a signature header that holds a character
    outside ASCII is not turned down as a bad signature: the comparison
    raises [TypeError], right after the body was read and before any
    verdict. *)
Theorem non_ascii_signature_raises
    self now uuid1 store (req : Request Media) secret sig :
  digest self <> "base64" ->
  method req = "POST" ->
  cfg_secret (config self) = Some secret ->
  get_header req (signature_header self) = Some sig ->
  is_ascii sig = false ->
  (is_uuid_required self = true -> get_header req (uuid_header self) <> None) ->
  exists w,
    run self now uuid1 store req = (Raise TypeError, w) /\
    req_is_authentic w = None /\ trace w = [ReadBody] /\ redis w = store.
Proof.
  intros Hd Hm Hs Hsig Hascii Hid.
  destruct (run self now uuid1 store req) as [r w] eqn:Hrun.
  unfold_mw. unfold compare_digest, generated_signature in Hrun.
  rewrite (bool_decide_eq_true_2 _ Hm), Hs, Hsig in Hrun.
  rewrite !(bool_decide_eq_false_2 _ Hd) in Hrun. cbn in Hrun.
  destruct (is_uuid_required self);
    [destruct (get_header req (uuid_header self)); [|by destruct Hid]|].
  all: cbn in Hrun; rewrite Hascii, andb_false_r in Hrun.
  all: cbn in Hrun; simplify_eq; eauto.
Qed.

(** X11: a POST without signature header does not get a negative verdict:
    the call ends in an exception raised by the signature check, with no
    verdict, body or context written on the request. *)
Theorem unsigned_post_fails self now uuid1 store (req : Request Media) :
  method req = "POST" ->
  get_header req (signature_header self) = None ->
  exists e w,
    run self now uuid1 store req = (Raise e, w) /\
    (e = AttributeError \/ e = ValueError \/ e = TypeError) /\
    req_is_authentic w = None /\ req_body w = None /\ req_context w = ∅.
Proof.
  intros Hm Hsig.
  destruct (run self now uuid1 store req) as [r w] eqn:Hrun.
  unfold_mw. rewrite (bool_decide_eq_true_2 _ Hm), Hsig in Hrun. cbn in Hrun.
  repeat step_in Hrun; simplify_eq; cbn; eauto 10.
  all: match goal with
       | Hc : compare_digest _ PyNone = _ |- _ =>
           rewrite compare_digest_none in Hc; simplify_eq; eauto 10
       end.
Qed.

(** X12: when the identifier is required and its header is absent, every
    request that is not let through ends in [AttributeError], whatever its
    signature and even when no secret is configured: the identifier is
    encoded before anything else is looked at. *)
Theorem missing_identifier_raises self now uuid1 store (req : Request Media) :
  is_uuid_required self = true ->
  get_header req (uuid_header self) = None ->
  method req = "POST" \/ get_header req (signature_header self) = None ->
  exists w,
    run self now uuid1 store req = (Raise AttributeError, w) /\
    req_is_authentic w = None /\ trace w = [ReadBody] /\ redis w = store.
Proof.
  intros Hreq Hid Hproc.
  destruct (run self now uuid1 store req) as [r w] eqn:Hrun.
  unfold_mw. rewrite Hreq, Hid in Hrun. cbn in Hrun.
  step_in Hrun; simplify_eq; [|by eauto].
  match goal with
  | Hc : _ && _ = true |- _ => apply andb_true_iff in Hc as [Hc1 Hc2]
  end.
  apply negb_true_iff, bool_decide_eq_false in Hc1.
  apply bool_decide_eq_true in Hc2. by destruct Hproc.
Qed.

(** A timestamp [expiry] seconds old or more fails the freshness test,
    for an expiry of at most [2 ^ 53]. *)
Lemma expired_timestamp self now timestamp :
  (Z.abs (expiry self) <= 2 ^ 53)%Z ->
  (inject_Z (expiry self) <= now - timestamp)%Q ->
  has_valid_timestamp self now timestamp = false.
Proof.
  intros Hbound Hexp. apply not_true_iff_false.
  intros Hf%has_valid_timestamp_sound; [lra|done].
Qed.

(** An identifier that fails the freshness test is not accepted, whatever
    the store holds. *)
Lemma expired_not_authenticated
    self now uuid1 store (req : Request Media) rid timestamp :
  is_uuid_required self = true ->
  get_header req (uuid_header self) = Some rid ->
  get_timestamp rid = Some timestamp ->
  has_valid_timestamp self now timestamp = false ->
  authenticated (snd (run self now uuid1 store req)) = false /\
  redis (snd (run self now uuid1 store req)) = store.
Proof.
  intros Hreq Hid Hts Hexp.
  destruct (authenticated (snd (run self now uuid1 store req))) eqn:Ha.
  - apply (authenticated_inv hmac_digest get_timestamp) in Ha
      as (s & rid' & ts & _ & _ & _ & ? & ? & Hfresh & _); [|done].
    simplify_eq. congruence.
  - split; [done|].
    destruct (store_after hmac_digest get_timestamp self now uuid1 store req)
      as [Hsame | (s' & rid' & _ & _ & Ha' & _)]; [done|].
    by rewrite Ha in Ha'.
Qed.

(** X13: for an expiry of at most [2 ^ 53] seconds, an identifier whose
    timestamp is [expiry] seconds old or more is never accepted, whatever
    its signature and whatever the store holds, and the store is left as
    it was. The store is asked all the same: when the signature check
    succeeds the lookup is made before the request is refused. *)
Theorem expired_never_authenticated
    self now uuid1 store (req : Request Media) rid timestamp :
  is_uuid_required self = true ->
  get_header req (uuid_header self) = Some rid ->
  get_timestamp rid = Some timestamp ->
  (Z.abs (expiry self) <= 2 ^ 53)%Z ->
  (inject_Z (expiry self) <= now - timestamp)%Q ->
  let out := run self now uuid1 store req in
  authenticated (snd out) = false /\
  redis (snd out) = store /\
  (forall s, store = Some s -> method req = "POST" ->
     sig_check self req = Ok true ->
     fst out = Raise HTTPForbidden /\
     trace (snd out) = [ReadBody; RedisGet (redis_key self rid)]).
Proof.
  intros Hreq Hid Hts Hbound Hexp out. subst out.
  pose proof (expired_timestamp self now timestamp Hbound Hexp) as Hf.
  destruct (expired_not_authenticated self now uuid1 store req rid timestamp)
    as [Hno Hsame]; try done.
  split_and!; try done.
  intros s -> Hm Hsig. clear Hno Hsame.
  destruct (run self now uuid1 (Some s) req) as [r w] eqn:Hrun.
  unfold_mw. rewrite (bool_decide_eq_true_2 _ Hm) in Hrun.
  rewrite Hreq, Hid in *. cbn in *. rewrite Hts in Hrun. cbn in *.
  rewrite Hf in Hrun.
  repeat step_in Hrun; simplify_eq; cbn in *; done.
Qed.

(** X14: single use for good, for an expiry of at most [2 ^ 53] seconds.
    Once a request is authenticated at [t1] with an identifier dated no
    more than [expiry] ahead of that moment, no call at any later time
    bearing that identifier is authenticated: the store refuses it for
    twice the expiry, and from then on the timestamp has expired. *)
Theorem single_use_forever
    self store t1 u1 (r1 : Request Media) rid timestamp
    (calls : list (Call Media)) t2 u2 r2 :
  is_uuid_required self = true ->
  get_header r1 (uuid_header self) = Some rid ->
  get_timestamp rid = Some timestamp ->
  (Z.abs (expiry self) <= 2 ^ 53)%Z ->
  authenticated (snd (run self t1 u1 store r1)) = true ->
  (timestamp <= t1 + inject_Z (expiry self))%Q ->
  Forall (fun c => (t1 <= call_time c)%Q /\ (call_time c <= t2)%Q) calls ->
  get_header r2 (uuid_header self) = Some rid ->
  (t1 <= t2)%Q ->
  authenticated
    (snd (run self t2 u2
            (serve hmac_digest get_timestamp self
                   (redis (snd (run self t1 u1 store r1))) calls) r2)) = false.
Proof.
  intros Hreq Hid1 Hts Hbound Hauth Hdated Hcalls Hid2 Hle.
  destruct (Qlt_le_dec t2 (t1 + inject_Z (2 * expiry self))) as [Hin|Hout].
  - apply (authenticated_inv hmac_digest get_timestamp) in Hauth
      as (s & rid' & ts & -> & _ & _ & Hid & _ & _ & _ & ->); [|done].
    rewrite Hid1 in Hid. simplify_eq.
    destruct (serve_used hmac_digest get_timestamp self calls
                (redis_set s t1 (redis_key self rid') rid' (expiry self * 2))
                (redis_key self rid') t1 (t1 + inject_Z (2 * expiry self)))
      as (s2 & -> & Hused).
    { intros t Ht1 Ht2. rewrite get_set_same; [done|done|].
      by rewrite Z.mul_comm. }
    { eapply Forall_impl; [exact Hcalls|]. intros c [? ?]. split; [done|lra]. }
    apply (used_not_authenticated hmac_digest get_timestamp self t2 u2 s2 r2 rid');
      [done|done|by apply Hused].
  - apply (expired_not_authenticated self t2 u2 _ r2 rid timestamp); try done.
    apply expired_timestamp; [done|].
    rewrite inject_Z_mult in Hout. change (inject_Z 2) with 2%Q in Hout. lra.
Qed.

(** X15: when the media handler cannot be found for an authenticated
    request, the error goes out to the caller, unlike a parse error: the
    call ends in [HTTPUnsupportedMediaType] with the request already marked
    authentic and its body attached, and, when the identifier is required,
    with the identifier already recorded as used. *)
Theorem handler_lookup_failure_propagates
    self now uuid1 store (req : Request Media) :
  let out := run self now uuid1 store req in
  authenticated (snd out) = true ->
  media_handler req = None ->
  fst out = Raise HTTPUnsupportedMediaType /\
  req_body (snd out) = Some (bounded_stream req) /\
  req_media (snd out) = None /\
  (is_uuid_required self = true ->
   exists s rid,
     store = Some s /\ get_header req (uuid_header self) = Some rid /\
     redis (snd out)
       = Some (redis_set s now (redis_key self rid) rid (expiry self * 2))).
Proof.
  intros out. subst out.
  destruct (run self now uuid1 store req) as [r w] eqn:Hrun.
  unfold authenticated. exec Hrun; intros Ha Hh; try done.
  all: split_and!; try done; by eauto.
Qed.

End MoreProperties.

(** ** The two stores *)

Section StoreProperties.
Context {Media : Type}.
Variable hmac_digest : digestmod -> bytes -> bytes -> bytes.
Variable get_timestamp : string -> option Q.

(** X16: with a store that expires its entries, the identifier is single
    use only as long as the entry lives. A request whose identifier is
    dated so far ahead that it still passes the freshness test when the
    entry has expired, more than twice the expiry after it was
    authenticated, is authenticated a second time. *)
Theorem future_dated_identifier_replayable
    self t1 u1 (s : TtlStore) (req : Request Media) rid timestamp t2 u2 :
  is_uuid_required self = true ->
  get_header req (uuid_header self) = Some rid ->
  get_timestamp rid = Some timestamp ->
  authenticated (snd (handle hmac_digest get_timestamp self t1 u1 (Some s) req))
    = true ->
  (t1 + inject_Z (2 * expiry self) < t2)%Q ->
  has_valid_timestamp self t2 timestamp = true ->
  authenticated
    (snd (handle hmac_digest get_timestamp self t2 u2
            (redis (snd (handle hmac_digest get_timestamp self t1 u1
                                (Some s) req))) req)) = true.
Proof.
  intros Hreq Hid Hts Hauth Hlate Hfresh.
  apply (authenticated_inv hmac_digest get_timestamp) in Hauth
    as (s0 & rid' & ts & [= <-] & Hm & Hsig & Hid' & _ & _ & _ & ->); [|done].
  rewrite Hid in Hid'. simplify_eq.
  apply (hex_signature_accepted hmac_digest get_timestamp self t2 u2 _ req
           rid' timestamp); try done.
  cbn. unfold TtlStore. rewrite lookup_insert_eq.
  assert (Qle_bool t2 (t1 + inject_Z (expiry self * 2)) = false) as ->; [|done].
  apply not_true_iff_false. rewrite Qle_bool_iff, Z.mul_comm. lra.
Qed.

(** A [FakeRedis] never loses a key. *)
Lemma fake_redis_keeps self now uuid1 (s : FakeRedis) (req : Request Media) key :
  s !! key <> None ->
  exists s',
    redis (snd (handle hmac_digest get_timestamp self now uuid1 (Some s) req))
      = Some s' /\ s' !! key <> None.
Proof.
  intros Hkey.
  destruct (store_after hmac_digest get_timestamp self now uuid1 (Some s) req)
    as [-> | (s0 & rid & ? & _ & _ & ->)]; [by eauto|].
  simplify_eq. eexists; split; [done|]. cbn. unfold FakeRedis.
  destruct (decide (redis_key self rid = key)) as [->|Hne].
  - by rewrite lookup_insert_eq.
  - by rewrite lookup_insert_ne.
Qed.

Lemma fake_redis_serve_keeps self (calls : list (Call Media)) :
  forall (s : FakeRedis) key,
    s !! key <> None ->
    exists s',
      serve hmac_digest get_timestamp self (Some s) calls = Some s' /\
      s' !! key <> None.
Proof.
  induction calls as [|c calls IH]; intros s key Hkey; [by eauto|].
  cbn.
  destruct (fake_redis_keeps self (call_time c) (call_uuid1 c) s
              (call_request c) key) as (s' & -> & Hkey'); [done|].
  by apply IH.
Qed.

(** X17: with the [FakeRedis] of the test suite, whose [set] ignores the
    lifetime it is given, an identifier that was authenticated once is
    never authenticated again: whatever calls are served afterwards and
    whenever they are made, a call bearing that identifier is refused and
    leaves the store as it is. *)
Theorem fake_redis_never_forgets
    self (store : option FakeRedis) t1 u1 (r1 : Request Media) rid
    (calls : list (Call Media)) t2 u2 (r2 : Request Media) :
  is_uuid_required self = true ->
  get_header r1 (uuid_header self) = Some rid ->
  authenticated (snd (handle hmac_digest get_timestamp self t1 u1 store r1))
    = true ->
  get_header r2 (uuid_header self) = Some rid ->
  let used :=
    serve hmac_digest get_timestamp self
          (redis (snd (handle hmac_digest get_timestamp self t1 u1 store r1)))
          calls in
  authenticated (snd (handle hmac_digest get_timestamp self t2 u2 used r2))
    = false /\
  redis (snd (handle hmac_digest get_timestamp self t2 u2 used r2)) = used.
Proof.
  intros Hreq Hid1 Hauth Hid2 used. subst used.
  apply (authenticated_inv hmac_digest get_timestamp) in Hauth
    as (s & rid' & ts & -> & _ & _ & Hid & _ & _ & _ & ->); [|done].
  rewrite Hid1 in Hid. simplify_eq.
  destruct (fake_redis_serve_keeps self calls
              (redis_set s t1 (redis_key self rid') rid' (expiry self * 2))
              (redis_key self rid')) as (s2 & -> & Hkey).
  { cbn. unfold FakeRedis. by rewrite lookup_insert_eq. }
  by apply (used_not_authenticated hmac_digest get_timestamp self t2 u2 s2 r2 rid').
Qed.

End StoreProperties.

(** ** The signer of the test suite against the middleware *)

Lemma append_length (a b : string) :
  String.length (a ++ b) = (String.length a + String.length b)%nat.
Proof.
  induction a as [|c a IH]; [done|].
  change (String c a ++ b) with (String c (a ++ b)). cbn. by rewrite IH.
Qed.

Lemma is_ascii_append (a b : string) :
  is_ascii (a ++ b) = is_ascii a && is_ascii b.
Proof.
  induction a as [|c a IH]; [done|].
  change (String c a ++ b) with (String c (a ++ b)). cbn.
  by rewrite IH, andb_assoc.
Qed.

Section TestSuite.
Context {Data Media : Type} {S : Type} `{ReplayStore S}.
Variable hmac_digest : digestmod -> bytes -> bytes -> bytes.
Variable get_timestamp : string -> option Q.
Variable json_dumps : Data -> string.

#[local] Abbreviation run := (handle (Media:=Media) hmac_digest get_timestamp).
#[local] Abbreviation sig_check := (signature_check (Media:=Media) (S:=S) hmac_digest).
#[local] Abbreviation sign := (Conf.get_authentic_request hmac_digest json_dumps).

#[local] Arguments encode_utf8 : simpl never.

(** The headers of a signed request as the middleware receives them. *)
Lemma delivered_headers self data request_id h encoding sig_prefix header_name
    (req : Request Media) :
  Conf.delivered self header_name
    (sign data request_id h encoding sig_prefix header_name) req ->
  method req = "POST" /\
  bounded_stream req = encode_utf8 (json_dumps data) /\
  get_header req (uuid_header self) = request_id /\
  get_header req (signature_header self)
    = Some (sig_prefix ++
            (if bool_decide (encoding = "base64")
             then string_of_list_byte
                    (b64encode
                       (hmac_digest h (encode_utf8 Conf.SECRET_KEY)
                          (match request_id with
                           | Some rid => encode_utf8 rid ++ encode_utf8 (json_dumps data)
                           | None => encode_utf8 (json_dumps data)
                           end)%list))
             else hexlify
                    (hmac_digest h (encode_utf8 Conf.SECRET_KEY)
                       (match request_id with
                        | Some rid => encode_utf8 rid ++ encode_utf8 (json_dumps data)
                        | None => encode_utf8 (json_dumps data)
                        end)%list))).
Proof.
  intros (Hm & Hb & Hsig & Hid). unfold Conf.get_authentic_request in *.
  cbn in Hb, Hsig, Hid.
  assert ("X-" ++ header_name ++ "-UUID" <> "X-" ++ header_name ++ "-Signature")
    as Hne1.
  { intros Heq. apply (inj (String.app _)) in Heq.
    by apply (inj (String.app _)) in Heq. }
  assert ("X-" ++ header_name ++ "-UUID" <> "Content-Type") as Hne2.
  { by unfold String.app; cbn. }
  split_and!; try done.
  - rewrite Hid. destruct request_id.
    + by rewrite lookup_insert_eq.
    + rewrite lookup_insert_ne by done. by rewrite lookup_singleton_ne.
  - rewrite Hsig. destruct request_id.
    + rewrite lookup_insert_ne by done. by rewrite lookup_insert_eq.
    + by rewrite lookup_insert_eq.
Qed.

(** A POST that passes the signature check is authenticated when the
    identifier is not required. *)
Lemma signature_accepted_without_identifier
    self now uuid1 store (req : Request Media) :
  is_uuid_required self = false -> method req = "POST" ->
  sig_check self req = Ok true ->
  authenticated (snd (run self now uuid1 store req)) = true.
Proof.
  intros Hreq Hm Hsig.
  destruct (run self now uuid1 store req) as [r w] eqn:Hrun.
  unfold authenticated. unfold_mw.
  rewrite (bool_decide_eq_true_2 _ Hm) in Hrun. rewrite Hreq in *. cbn in *.
  repeat step_in Hrun; simplify_eq; cbn in *; try done.
Qed.

(** X18: the round trip with the signer of the test suite. A request made
    by [get_authentic_request] with hexadecimal encoding and no signature
    prefix, delivered as a POST to a middleware that agrees with the
    signer, is authenticated, provided that its identifier, when one is
    required, passes the freshness test and is unused. *)
Theorem signed_test_request_authenticated
    self now uuid1 store data request_id h encoding header_name
    (req : Request Media) :
  Conf.delivered self header_name
    (sign data request_id h encoding "" header_name) req ->
  Conf.agree self request_id h encoding ->
  (forall rid, request_id = Some rid ->
     exists s timestamp,
       store = Some s /\ get_timestamp rid = Some timestamp /\
       has_valid_timestamp self now timestamp = true /\
       redis_get s now (redis_key self rid) = None) ->
  authenticated (snd (run self now uuid1 store req)) = true.
Proof.
  intros Hdel (Hs & Hd & He & Hh & Hreq & Hnreq) Hid.
  apply delivered_headers in Hdel as (Hm & Hb & Huuid & Hsig).
  rewrite (bool_decide_eq_false_2 _ He) in Hsig.
  assert (sig_check self req = Ok true) as Hcheck.
  { apply (hex_signature_check hmac_digest self req Conf.SECRET_KEY); try done.
    - intros Hr. rewrite Huuid. by apply Hreq.
    - rewrite Hsig, Huuid, Hb. unfold reference_signature, generated_signature.
      rewrite (bool_decide_eq_false_2 _ Hd), <- Hh. cbn.
      destruct (is_uuid_required self) eqn:Hr.
      + by destruct request_id.
      + by rewrite Hnreq. }
  destruct (is_uuid_required self) eqn:Hr.
  - destruct request_id as [rid|]; [|by destruct Hreq].
    destruct (Hid rid eq_refl) as (s & ts & -> & Hts & Hfresh & Hun).
    by apply (hex_signature_accepted hmac_digest get_timestamp self now uuid1 s
                req rid ts).
  - by apply signature_accepted_without_identifier.
Qed.

(** X19: the middleware knows no signature prefix. The same request made
    with a prefix (the [sha1=] of [TestGithubStyleMiddleware]) is never
    authenticated, although signer and middleware agree on all else: with
    a prefix in ASCII it is marked not authentic and refused. *)
Theorem prefixed_test_request_refused
    self now uuid1 store data request_id h encoding sig_prefix header_name
    (req : Request Media) :
  Conf.delivered self header_name
    (sign data request_id h encoding sig_prefix header_name) req ->
  Conf.agree self request_id h encoding ->
  sig_prefix <> "" ->
  let out := run self now uuid1 store req in
  authenticated (snd out) = false /\
  (is_ascii sig_prefix = true ->
     fst out = Raise HTTPForbidden /\ req_is_authentic (snd out) = Some false).
Proof.
  intros Hdel (Hs & Hd & He & Hh & Hreq & Hnreq) Hpre out. subst out.
  apply delivered_headers in Hdel as (Hm & Hb & Huuid & Hsig).
  rewrite (bool_decide_eq_false_2 _ He) in Hsig.
  assert (sig_check self req
          = if is_ascii sig_prefix then Ok false else Raise TypeError) as Hcheck.
  { rewrite (signature_check_hex hmac_digest self req Conf.SECRET_KEY _ Hd Hs) by
      (try done; intros Hr; rewrite Huuid; by apply Hreq).
    rewrite Huuid, Hb. unfold reference_signature, generated_signature.
    rewrite (bool_decide_eq_false_2 _ Hd), <- Hh.
    assert (forall mac,
              compare_digest (PyStr (hexlify mac))
                             (PyStr (sig_prefix ++ hexlify mac))
              = if is_ascii sig_prefix then Ok false else Raise TypeError) as Hc.
    { intros mac. unfold compare_digest.
      rewrite is_ascii_append, !hexlify_is_ascii, andb_true_r. cbn.
      destruct (is_ascii sig_prefix); [|done].
      rewrite bool_decide_eq_false_2; [done|].
      intros Heq. apply (f_equal String.length) in Heq.
      rewrite append_length in Heq. destruct sig_prefix; [done|].
      cbn in Heq. lia. }
    destruct (is_uuid_required self) eqn:Hr.
    - destruct request_id as [rid|]; [|by destruct Hreq]. apply Hc.
    - rewrite (Hnreq eq_refl). apply Hc. }
  split.
  - destruct (authenticated (snd (run self now uuid1 store req))) eqn:Ha; [|done].
    apply (authenticated_signature hmac_digest get_timestamp) in Ha as [_ Ha].
    rewrite Hcheck in Ha. by destruct (is_ascii sig_prefix).
  - intros Hascii. rewrite Hascii in Hcheck.
    destruct (rejected_outcome hmac_digest get_timestamp self now uuid1 store req)
      as (w & -> & ? & _); [done|by apply bad_signature|done].
Qed.

End TestSuite.

(** ** Tampering, and requests that do not concern each other *)

Lemma hex_digit_inj n m :
  (n < 16)%N -> (m < 16)%N -> hex_digit n = hex_digit m -> n = m.
Proof.
  intros Hn Hm Heq. apply (f_equal N_of_ascii) in Heq. revert Heq.
  unfold hex_digit.
  destruct (n <? 10)%N eqn:En, (m <? 10)%N eqn:Em;
    rewrite ?N.ltb_lt, ?N.ltb_ge in *;
    rewrite !N_ascii_embedding by lia; lia.
Qed.

Lemma ord_inj a b : ord a = ord b -> a = b.
Proof.
  unfold ord. intros Heq.
  apply (f_equal Byte.of_N) in Heq. rewrite !Byte.of_to_N in Heq. congruence.
Qed.

Lemma hexlify_inj a : forall b, hexlify a = hexlify b -> a = b.
Proof.
  induction a as [|x a IH]; intros [|y b] Heq; try done.
  cbn in Heq. injection Heq as Hhi Hlo Hrest.
  pose proof (ord_bound x) as Hx. pose proof (ord_bound y) as Hy.
  apply hex_digit_inj in Hhi;
    [|apply N.Div0.div_lt_upper_bound; lia|apply N.Div0.div_lt_upper_bound; lia].
  apply hex_digit_inj in Hlo; [|apply N.mod_lt; lia|apply N.mod_lt; lia].
  f_equal; [|by apply IH].
  apply ord_inj.
  rewrite (N.div_mod (ord x) 16), (N.div_mod (ord y) 16) by lia. congruence.
Qed.

Section Tampering.
Context {Media : Type} {S : Type} `{ReplayStoreLaws S}.
Variable hmac_digest : digestmod -> bytes -> bytes -> bytes.
Variable get_timestamp : string -> option Q.

#[local] Abbreviation run := (handle (Media:=Media) hmac_digest get_timestamp).
#[local] Abbreviation sig_check := (signature_check (Media:=Media) (S:=S) hmac_digest).


(** The verdict looks at the store only through the lookup of the key of
    the identifier the request bears. *)
Lemma verdict_depends_on_lookup
    self now uuid1 (s s' : S) (req : Request Media) :
  (forall rid, get_header req (uuid_header self) = Some rid ->
     redis_get s now (redis_key self rid) = redis_get s' now (redis_key self rid)) ->
  fst (run self now uuid1 (Some s) req) = fst (run self now uuid1 (Some s') req) /\
  req_is_authentic (snd (run self now uuid1 (Some s) req))
    = req_is_authentic (snd (run self now uuid1 (Some s') req)).
Proof.
  intros Hlook.
  destruct (run self now uuid1 (Some s) req) as [r w] eqn:Hrun.
  destruct (run self now uuid1 (Some s') req) as [r' w'] eqn:Hrun'.
  unfold_mw; cbn in *.
  destruct (get_header req (uuid_header self)) as [rid|] eqn:Hid.
  - specialize (Hlook rid eq_refl).
    repeat step_in Hrun; rewrite ?andb_false_r in *; cbn in *.
    all: try rewrite <- Hlook in Hrun'; clear Hlook.
    all: repeat match goal with
                | Hc : _ = _ |- _ =>
                    tryif constr_eq Hc Hrun' then fail
                    else (rewrite Hc in Hrun'; cbn in Hrun')
                end.
    all: by simplify_eq.
  - repeat step_in Hrun; rewrite ?andb_false_r in *; cbn in *; by simplify_eq.
Qed.

(** Without a required identifier the store is never touched. *)
Lemma store_untouched_without_identifier
    self now uuid1 store (req : Request Media) :
  is_uuid_required self = false ->
  redis (snd (run self now uuid1 store req)) = store.
Proof.
  intros Hreq.
  destruct (run self now uuid1 store req) as [r w] eqn:Hrun.
  exec Hrun; done.
Qed.

(** X21: requests with different identifiers do not concern each other.
    Whatever a call does to the store, the outcome and the verdict of a
    later request bearing another identifier are the same as if that call
    had not been made. *)
Theorem other_identifier_unaffected
    self t1 u1 (s : S) (r1 : Request Media) t2 u2 (r2 : Request Media) :
  (forall rid, get_header r1 (uuid_header self) = Some rid ->
     get_header r2 (uuid_header self) <> Some rid) ->
  exists s',
    redis (snd (run self t1 u1 (Some s) r1)) = Some s' /\
    fst (run self t2 u2 (Some s') r2) = fst (run self t2 u2 (Some s) r2) /\
    req_is_authentic (snd (run self t2 u2 (Some s') r2))
      = req_is_authentic (snd (run self t2 u2 (Some s) r2)).
Proof.
  intros Hother.
  destruct (is_uuid_required self) eqn:Hreq.
  2: { rewrite store_untouched_without_identifier by done. by eauto. }
  destruct (authenticated (snd (run self t1 u1 (Some s) r1))) eqn:Ha.
  - apply (authenticated_inv hmac_digest get_timestamp) in Ha
      as (s0 & rid1 & ? & [= <-] & _ & _ & Hid1 & _ & _ & _ & ->); [|done].
    eexists; split; [done|].
    apply verdict_depends_on_lookup. intros rid2 Hid2.
    apply get_set_other. unfold redis_key. intros Hkey.
    apply (inj (String.app _)) in Hkey. apply (inj (String.app _)) in Hkey.
    subst rid2. by apply (Hother rid1).
  - destruct (store_after hmac_digest get_timestamp self t1 u1 (Some s) r1)
      as [-> | (? & ? & _ & _ & Ha' & _)]; [by eauto|].
    by rewrite Ha in Ha'.
Qed.

End Tampering.

(** * The theorems at work on sample requests *)

Module Worked.
Import Sample.

Ltac run_it := vm_compute; first [reflexivity | discriminate].

(** C1 at work: the default configuration and the reference signature in
    base64; the call ends in [TypeError]. *)
Lemma base64_signature_raises_witness :
  encode_utf8 "QfbW1Zj7ZElVrVjWa5SqnlQ6ajsVayDiH5dIOQT0rtI="
    = b64encode (hmac_digest sha256 (encode_utf8 "SecretKey1234")
                             (encode_utf8 id1 ++ data)%list) /\
  exists w,
    run secret_only (t0 + 10) (Some ∅) base64_post = (Raise TypeError, w) /\
    authenticated w = false /\ req_is_authentic w = None /\ redis w = Some ∅.
Proof.
  split; [run_it|].
  pose proof (base64_signature_raises hmac_digest get_timestamp
                (init secret_only) (t0 + 10) "fresh-uuid1" (Some ∅) base64_post
                "SecretKey1234" "QfbW1Zj7ZElVrVjWa5SqnlQ6ajsVayDiH5dIOQT0rtI=")
    as Hw.
  exact (Hw ltac:(run_it) ltac:(run_it) ltac:(run_it) ltac:(run_it)
            ltac:(intros _; run_it)).
Defined.

(** C2 at work: the signed request is authenticated at [t0 + 10]; another
    request is served; at [t0 + 20] the same request is refused. *)
Lemma used_identifier_rejected_witness :
  let used :=
    serve hmac_digest get_timestamp (init hex_config)
          (redis (snd (run hex_config (t0 + 10) (Some ∅) signed_post)))
          [{| call_time := t0 + 15; call_uuid1 := "fresh-uuid1";
              call_request := forged_post |}] in
  let out := run hex_config (t0 + 20) used signed_post in
  (exists s, Some (∅ : TtlStore) = Some s /\
             redis_get s (t0 + 10) (redis_key (init hex_config) id1) = None) /\
  (exists s2, used = Some s2 /\
              used_during s2 (redis_key (init hex_config) id1) (t0 + 10)
                (t0 + 10 + inject_Z (2 * expiry (init hex_config)))) /\
  authenticated (snd out) = false /\
  redis (snd out) = used /\
  (signed_post = signed_post ->
     fst out = Raise HTTPForbidden /\ req_is_authentic (snd out) = Some false).
Proof.
  pose proof (used_identifier_rejected hmac_digest get_timestamp
                (init hex_config) (Some ∅) (t0 + 10) "fresh-uuid1" signed_post id1
                [{| call_time := t0 + 15; call_uuid1 := "fresh-uuid1";
                    call_request := forged_post |}]
                (t0 + 20) "fresh-uuid1" signed_post) as Hw.
  exact (Hw ltac:(run_it) ltac:(run_it) ltac:(run_it)
            ltac:(repeat constructor; run_it)
            ltac:(run_it) ltac:(run_it) ltac:(run_it)).
Defined.

(** The clock readings and timestamps used below are values a double
    holds: turning them into a float changes nothing. *)
Example readings_are_doubles :
  float_of_Q (1793700000 - (1 # 4194304))
    = Finite (Qred (1793700000 - (1 # 4194304))) /\
  float_of_Q (-12219292800) = Finite (-12219292800) /\
  float_of_Q 9007199254740994 = Finite 9007199254740994 /\
  float_of_Q (t0 + 300 - (1 # 2)) = Finite (Qred (t0 + 300 - (1 # 2))).
Proof. split_and!; run_it. Qed.

(** C3, counterexample. An identifier less than [expiry] seconds in the
    past, and unused, is refused: the clock reads [1793699999.9999998],
    the timestamp is [-12219292800.0], and their difference, which is
    [2 ^ -22] below the expiry of 14012992800 s, rounds up to it. And an
    identifier exactly [expiry] seconds in the past is accepted when the
    expiry is [2 ^ 53 + 1]: the difference rounds down to [2 ^ 53]. *)
Lemma freshness_test_rounds :
  (get_timestamp id_1582 = Some (-12219292800)%Q /\
   (1793700000 - (1 # 4194304) - -12219292800
    < inject_Z (expiry (init (expiry_config 14012992800))))%Q /\
   redis_get (∅ : TtlStore) (1793700000 - (1 # 4194304))
     (redis_key (init (expiry_config 14012992800)) id_1582) = None /\
   has_valid_request_id (expiry_config 14012992800)
     (1793700000 - (1 # 4194304)) id_1582 = Ok false) /\
  (get_timestamp id_1970 = Some 1%Q /\
   (9007199254740994 - 1
    == inject_Z (expiry (init (expiry_config 9007199254740993))))%Q /\
   has_valid_request_id (expiry_config 9007199254740993)
     9007199254740994 id_1970 = Ok true).
Proof. split_and!; run_it. Qed.

(** C3 at work: the identifier made at [t0] under the default expiry of
    300 s, with an empty store; the check is run at the boundary
    [t0 + 300], where it answers [False], and half a second before,
    where it answers [True]. *)
Lemma validate_strict_freshness_witness :
  has_valid_request_id hex_config (t0 + 300) id1 = Ok false /\
  has_valid_request_id hex_config (t0 + 300 - (1 # 2)) id1 = Ok true.
Proof.
  pose proof (validate_strict_freshness get_timestamp (init hex_config)
                (t0 + 300) id1 t0 (∅ : TtlStore)
                (fresh_world (Media:=string) (Some ∅))
                ltac:(run_it) ltac:(run_it)) as (b1 & w1 & Hrun1 & _ & Hexp & _).
  pose proof (validate_strict_freshness get_timestamp (init hex_config)
                (t0 + 300 - (1 # 2)) id1 t0 (∅ : TtlStore)
                (fresh_world (Media:=string) (Some ∅))
                ltac:(run_it) ltac:(run_it)) as (b2 & w2 & Hrun2 & _ & _ & Hfresh).
  assert (is_double (t0 + 300 - (1 # 2) - t0)) as Hd.
  { exists 599%Z, (-1)%Z. split_and!; run_it. }
  assert (b1 = false) as Hb1.
  { apply Hexp; run_it. }
  assert (b2 = true) as Hb2.
  { apply (proj2 (Hfresh Hd) (1 # 2)); run_it. }
  unfold has_valid_request_id. rewrite Hrun1, Hrun2, Hb1, Hb2. split; reflexivity.
Defined.

(** C4 at work: [test_get_passthrough] under the default configuration. *)
Lemma unsigned_non_post_fails_witness :
  exists e w,
    run secret_only (t0 + 10) (Some ∅) plain_get = (Raise e, w) /\
    (e = AttributeError \/ e = ValueError \/ e = TypeError) /\
    trace w = [ReadBody] /\ req_is_authentic w = None.
Proof.
  pose proof (unsigned_non_post_fails hmac_digest get_timestamp
                (init secret_only) (t0 + 10) "fresh-uuid1" (Some ∅) plain_get)
    as Hw.
  exact (Hw ltac:(run_it) ltac:(run_it)).
Defined.

(** What that call does, exactly. *)
Example plain_get_outcome :
  let out := run secret_only (t0 + 10) (Some ∅) plain_get in
  fst out = Raise AttributeError /\ trace (snd out) = [ReadBody].
Proof. split; run_it. Qed.

(** C5, counterexample: a body that does not match its signature ends in
    an exception although the secret is configured. *)
Lemma bad_signature_is_an_exception :
  cfg_secret github_config = Some "SecretKey1234" /\
  fst (run github_config (t0 + 10) None github_tampered) = Raise HTTPForbidden.
Proof. split; run_it. Qed.

(** C5 at work: the tampered body of [test_different_data] and the signed
    request 300 s after its identifier was made are marked not authentic
    and refused; without a secret the call ends in [ValueError]. *)
Lemma rejection_raises_forbidden_witness :
  (exists w,
     run github_config (t0 + 10) None github_tampered = (Raise HTTPForbidden, w) /\
     req_is_authentic w = Some false /\
     req_context w !! (header_name (init github_config) ++ "-authenticated")
       = Some (CtxBool false) /\
     redis w = None) /\
  (exists w,
     run hex_config (t0 + 300) (Some ∅) signed_post = (Raise HTTPForbidden, w) /\
     req_is_authentic w = Some false /\
     req_context w !! (header_name (init hex_config) ++ "-authenticated")
       = Some (CtxBool false) /\
     redis w = Some ∅) /\
  (exists w,
     run no_secret (t0 + 10) None github_post = (Raise ValueError, w) /\
     req_is_authentic w = None).
Proof.
  pose proof (rejection_raises_forbidden hmac_digest get_timestamp
                (init github_config) (t0 + 10) "fresh-uuid1" None github_tampered)
    as [Hbad _].
  pose proof (rejection_raises_forbidden hmac_digest get_timestamp
                (init hex_config) (t0 + 300) "fresh-uuid1" (Some ∅) signed_post)
    as [Hexpired _].
  pose proof (rejection_raises_forbidden hmac_digest get_timestamp
                (init no_secret) (t0 + 10) "fresh-uuid1"
                (None : option TtlStore) github_post) as [_ Hsecret].
  assert (method github_post = "POST") as Hm by run_it.
  assert (has_valid_timestamp (init hex_config) (t0 + 300) t0 = false) as Hf
    by run_it.
  split; [|split].
  - exact (proj1 (Hbad "SecretKey1234" ltac:(run_it) ltac:(run_it) ltac:(run_it))
             "2603d418bd482dc3b04456da8eb139e97ad10c79"
             ltac:(intros Hr; vm_compute in Hr; discriminate Hr)
             ltac:(run_it) ltac:(run_it) ltac:(run_it)).
  - exact (proj2 (Hexpired "SecretKey1234" ltac:(run_it) ltac:(run_it)
                    ltac:(run_it))
             ∅ id1 t0 ltac:(run_it) eq_refl ltac:(run_it) ltac:(run_it)
             ltac:(run_it) (or_introl Hf)).
  - exact (Hsecret ltac:(run_it) (or_introl Hm)
             ltac:(intros Hr; vm_compute in Hr; discriminate Hr)).
Defined.

(** C7 at work: the default digest without identifier. The POST bears the
    base64 HMAC of its body and no identifier header; no store call is
    made, and the call ends in [TypeError] with no verdict. *)
Lemma no_identifier_no_store_witness :
  is_uuid_required (init no_identifier_config) = false /\
  encode_utf8 "9OjRDAzCB+TCwG0wGvXTejkZBL8iQo+ymuPf51aIRyw="
    = b64encode (hmac_digest sha256 (encode_utf8 "SecretKey1234") data) /\
  List.filter is_redis_call
    (trace (snd (run no_identifier_config (t0 + 10) None base64_body_post))) = [] /\
  fst (run no_identifier_config (t0 + 10) None base64_body_post)
    = Raise TypeError /\
  req_is_authentic (snd (run no_identifier_config (t0 + 10) None base64_body_post))
    = None.
Proof.
  pose proof (no_identifier_no_store hmac_digest get_timestamp
                (init no_identifier_config) (t0 + 10) "fresh-uuid1" None
                base64_body_post ltac:(run_it))
    as (Hcalls & _ & _ & _ & _ & Hb64).
  split; [run_it|]. split; [run_it|]. split; [exact Hcalls|].
  exact (Hb64 "SecretKey1234" "9OjRDAzCB+TCwG0wGvXTejkZBL8iQo+ymuPf51aIRyw="
              ltac:(run_it) ltac:(run_it) ltac:(run_it) ltac:(run_it)).
Defined.

(** Under a hexadecimal digest the same construction is accepted:
    [TestGithubStyleMiddleware.test_authentic] without its prefix. *)
Example hex_body_signature_accepted :
  authenticated (snd (run github_config (t0 + 10) None github_post)) = true.
Proof. run_it. Qed.


(** C10, counterexample: the identifier is required, no store was
    supplied and the request bears the signature the reference
    construction makes, and yet no assertion fails. With an identifier
    that is not a UUID the call ends in [ValueError], raised when the
    identifier is parsed; a GET is let through before any check; and
    under the base64 digest the comparison raises [TypeError]. *)
Lemma no_assertion_without_store :
  (is_uuid_required (init hex_config) = true /\
   of_header (get_header malformed_post (signature_header (init hex_config)))
     = reference_signature hmac_digest (init hex_config) "SecretKey1234"
         (get_header malformed_post (uuid_header (init hex_config)))
         (bounded_stream malformed_post) /\
   fst (run hex_config (t0 + 10) None malformed_post) = Raise ValueError) /\
  (of_header (get_header matching_get (signature_header (init hex_config)))
     = reference_signature hmac_digest (init hex_config) "SecretKey1234"
         (get_header matching_get (uuid_header (init hex_config)))
         (bounded_stream matching_get) /\
   run hex_config (t0 + 10) None matching_get = (Ok tt, fresh_world None)) /\
  (is_uuid_required (init secret_only) = true /\
   PyBytes (encode_utf8 "QfbW1Zj7ZElVrVjWa5SqnlQ6ajsVayDiH5dIOQT0rtI=")
     = reference_signature hmac_digest (init secret_only) "SecretKey1234"
         (get_header base64_post (uuid_header (init secret_only)))
         (bounded_stream base64_post) /\
   fst (run secret_only (t0 + 10) None base64_post) = Raise TypeError).
Proof. split_and!; run_it. Qed.

(** C10 at work: the signed request with and without a store. *)
Lemma store_assertions_witness :
  fst (run hex_config (t0 + 10) (Some ∅) signed_post) <> Raise AssertionError /\
  exists w,
    run hex_config (t0 + 10) None signed_post = (Raise AssertionError, w) /\
    req_is_authentic w = None.
Proof.
  split.
  - exact (proj1 (store_assertions hmac_digest get_timestamp (init hex_config)
                    (t0 + 10) "fresh-uuid1" (Some ∅) signed_post) ∅ eq_refl).
  - exact (proj2 (store_assertions hmac_digest get_timestamp (init hex_config)
                    (t0 + 10) "fresh-uuid1" None signed_post)
                 "SecretKey1234" id1 t0
                 eq_refl ltac:(run_it) ltac:(run_it) ltac:(run_it)
                 ltac:(run_it) ltac:(run_it) ltac:(run_it) ltac:(run_it)).
Defined.

(** No secret in the configuration: [ValueError], no verdict. *)
Example missing_secret_outcome :
  let out := run no_secret (t0 + 10) None github_post in
  fst out = Raise ValueError /\ req_is_authentic (snd out) = None.
Proof. split; run_it. Qed.

(** The write made when [signed_post] is authenticated. *)
Example mark_used_sample :
  List.filter is_redis_set
    (trace (snd (run hex_config (t0 + 10) (Some ∅) signed_post)))
  = [RedisSet "nonce.54d75000-d76d-11f1-8000-0242ac120002"
              "54d75000-d76d-11f1-8000-0242ac120002" 600].
Proof. run_it. Qed.

End Worked.

(** * The further properties at work *)

Module WorkedMore.
Import Sample MoreSamples.

Ltac run_it := vm_compute; first [reflexivity | discriminate | done].

(** X1 at work. *)
Lemma redis_key_inj_witness :
  redis_key (init hex_config) id1 = redis_key (init hex_config) id1 /\ id1 = id1.
Proof.
  split; [reflexivity|].
  exact (redis_key_inj (init hex_config) id1 id1 eq_refl).
Defined.

(** X2 at work: a GET with a signature header, and the signed POST. *)
Lemma body_read_unless_passed_through_witness :
  run hex_config (t0 + 10) (Some ∅) signed_get
    = (Ok tt, fresh_world (Some ∅)) /\
  exists rest,
    trace (snd (run hex_config (t0 + 10) (Some ∅) signed_post))
      = ReadBody :: rest /\ ~ In ReadBody rest.
Proof.
  pose proof (body_read_unless_passed_through hmac_digest get_timestamp
                (init hex_config) (t0 + 10) "fresh-uuid1" (Some ∅) signed_get)
    as [Hpass _].
  pose proof (body_read_unless_passed_through hmac_digest get_timestamp
                (init hex_config) (t0 + 10) "fresh-uuid1" (Some ∅) signed_post)
    as [_ Hread].
  assert (method signed_get <> "POST") as H1 by run_it.
  assert (get_header signed_get (signature_header (init hex_config)) <> None)
    as H2 by run_it.
  assert (method signed_post = "POST") as H3 by run_it.
  exact (conj (Hpass (conj H1 H2)) (Hread (or_introl H3))).
Defined.

(** X3 at work: [test_authentic] of [TestGithubStyleMiddleware]. *)
Lemma normal_return_means_authenticated_witness :
  (method github_post <> "POST" /\
   get_header github_post (signature_header (init github_config)) <> None /\
   snd (run github_config (t0 + 10) None github_post) = fresh_world None) \/
  (req_is_authentic (snd (run github_config (t0 + 10) None github_post))
     = Some true /\
   req_body (snd (run github_config (t0 + 10) None github_post))
     = Some (bounded_stream github_post)).
Proof.
  exact (normal_return_means_authenticated hmac_digest get_timestamp
           (init github_config) (t0 + 10) "fresh-uuid1" None github_post
           ltac:(run_it)).
Defined.

(** X7 at work: the refused request of [test_different_data]. *)
Lemma body_attached_iff_authenticated_witness :
  req_body (snd (run github_config (t0 + 10) None github_tampered)) = None /\
  req_media (snd (run github_config (t0 + 10) None github_tampered)) = None.
Proof.
  exact (proj1 (proj2 (body_attached_iff_authenticated hmac_digest get_timestamp
                         (init github_config) (t0 + 10) "fresh-uuid1" None
                         github_tampered)) ltac:(run_it)).
Defined.


(** X9 at work. *)
Lemma authenticated_only_if_fresh_and_unused_witness :
  exists s rid timestamp,
    Some (∅ : TtlStore) = Some s /\
    get_header signed_post (uuid_header (init hex_config)) = Some rid /\
    get_timestamp rid = Some timestamp /\
    has_valid_timestamp (init hex_config) (t0 + 10) timestamp = true /\
    ((Z.abs (expiry (init hex_config)) <= 2 ^ 53)%Z ->
     (t0 + 10 - timestamp < inject_Z (expiry (init hex_config)))%Q) /\
    redis_get s (t0 + 10) (redis_key (init hex_config) rid) = None.
Proof.
  exact (authenticated_only_if_fresh_and_unused hmac_digest get_timestamp
           (init hex_config) (t0 + 10) "fresh-uuid1" (Some ∅) signed_post
           ltac:(run_it) ltac:(run_it)).
Defined.

(** X10 at work. *)
Lemma non_ascii_signature_raises_witness :
  exists w,
    run hex_config (t0 + 10) (Some ∅) non_ascii_post = (Raise TypeError, w) /\
    req_is_authentic w = None /\ trace w = [ReadBody] /\ redis w = Some ∅.
Proof.
  exact (non_ascii_signature_raises hmac_digest get_timestamp (init hex_config)
           (t0 + 10) "fresh-uuid1" (Some ∅) non_ascii_post "SecretKey1234"
           (String (ascii_of_N 233) "abc")
           ltac:(run_it) ltac:(run_it) ltac:(run_it) ltac:(run_it)
           ltac:(run_it) ltac:(intros _; run_it)).
Defined.

(** X11 at work: [test_inauthentic] under the configuration of
    [TestGithubStyleMiddleware]. *)
Lemma unsigned_post_fails_witness :
  exists e w,
    run github_config (t0 + 10) None unsigned_post = (Raise e, w) /\
    (e = AttributeError \/ e = ValueError \/ e = TypeError) /\
    req_is_authentic w = None /\ req_body w = None /\ req_context w = ∅.
Proof.
  exact (unsigned_post_fails hmac_digest get_timestamp (init github_config)
           (t0 + 10) "fresh-uuid1" None unsigned_post
           ltac:(run_it) ltac:(run_it)).
Defined.

(** X12 at work: [test_missing_id] under the default configuration. *)
Lemma missing_identifier_raises_witness :
  exists w,
    run secret_only (t0 + 10) (Some ∅) missing_id_post
      = (Raise AttributeError, w) /\
    req_is_authentic w = None /\ trace w = [ReadBody] /\ redis w = Some ∅.
Proof.
  pose proof (missing_identifier_raises hmac_digest get_timestamp
                (init secret_only) (t0 + 10) "fresh-uuid1" (Some ∅)
                missing_id_post) as Hw.
  assert (method missing_id_post = "POST") as H1 by run_it.
  exact (Hw ltac:(run_it) ltac:(run_it) (or_introl H1)).
Defined.

(** X13 at work: the signed request, 300 s after its identifier was
    made. *)
Lemma expired_never_authenticated_witness :
  let out := run hex_config (t0 + 300) (Some ∅) signed_post in
  authenticated (snd out) = false /\
  redis (snd out) = Some ∅ /\
  (forall s, Some (∅ : TtlStore) = Some s -> method signed_post = "POST" ->
     signature_check (S:=TtlStore) hmac_digest (init hex_config) signed_post
       = Ok true ->
     fst out = Raise HTTPForbidden /\
     trace (snd out) = [ReadBody; RedisGet (redis_key (init hex_config) id1)]).
Proof.
  exact (expired_never_authenticated hmac_digest get_timestamp (init hex_config)
           (t0 + 300) "fresh-uuid1" (Some ∅) signed_post id1 t0
           ltac:(run_it) ltac:(run_it) ltac:(run_it) ltac:(run_it)
           ltac:(run_it)).
Defined.

(** X14 at work: the signed request again, a day later. *)
Lemma single_use_forever_witness :
  authenticated
    (snd (run hex_config (t0 + 86400)
            (serve hmac_digest get_timestamp (init hex_config)
                   (redis (snd (run hex_config (t0 + 10) (Some ∅) signed_post)))
                   [{| call_time := t0 + 15; call_uuid1 := "fresh-uuid1";
                       call_request := forged_post |}])
            signed_post)) = false.
Proof.
  pose proof (single_use_forever (H0:=TtlStore_laws) hmac_digest get_timestamp
                (init hex_config) (Some ∅) (t0 + 10) "fresh-uuid1" signed_post
                id1 t0
                [{| call_time := t0 + 15; call_uuid1 := "fresh-uuid1";
                    call_request := forged_post |}]
                (t0 + 86400) "fresh-uuid1" signed_post) as Hw.
  exact (Hw ltac:(run_it) ltac:(run_it) ltac:(run_it) ltac:(run_it)
            ltac:(run_it) ltac:(run_it) ltac:(repeat constructor; run_it)
            ltac:(run_it) ltac:(run_it)).
Defined.

(** X15 at work. *)
Lemma handler_lookup_failure_propagates_witness :
  let out := run github_config (t0 + 10) None no_handler_post in
  fst out = Raise HTTPUnsupportedMediaType /\
  req_body (snd out) = Some (bounded_stream no_handler_post) /\
  req_media (snd out) = None /\
  (is_uuid_required (init github_config) = true ->
   exists s rid,
     (None : option TtlStore) = Some s /\
     get_header no_handler_post (uuid_header (init github_config)) = Some rid /\
     redis (snd out)
       = Some (redis_set s (t0 + 10) (redis_key (init github_config) rid) rid
                         (expiry (init github_config) * 2))).
Proof.
  exact (handler_lookup_failure_propagates hmac_digest get_timestamp
           (init github_config) (t0 + 10) "fresh-uuid1" None no_handler_post
           ltac:(run_it) ltac:(run_it)).
Defined.

(** X16 at work: an identifier dated a day ahead is accepted at [t0], and
    again 700 s later, when its entry in the store has expired. At
    [t0 + 600], the deadline of the entry, it is still refused. *)
Example refused_at_the_deadline :
  authenticated
    (snd (run hex_config (t0 + 600)
            (redis (snd (run hex_config t0 (Some ∅) future_post)))
            future_post)) = false.
Proof. run_it. Qed.

Lemma future_dated_identifier_replayable_witness :
  authenticated
    (snd (run hex_config (t0 + 700)
            (redis (snd (run hex_config t0 (Some ∅) future_post)))
            future_post)) = true.
Proof.
  exact (future_dated_identifier_replayable hmac_digest get_timestamp
           (init hex_config) t0 "fresh-uuid1" ∅ future_post id_future
           (t0 + 86400) (t0 + 700) "fresh-uuid1"
           ltac:(run_it) ltac:(run_it) ltac:(run_it) ltac:(run_it)
           ltac:(run_it) ltac:(run_it)).
Defined.

(** X17 at work: over a [FakeRedis] the signed request is refused ten days
    later as well. *)
Lemma fake_redis_never_forgets_witness :
  let used :=
    serve hmac_digest get_timestamp (init hex_config)
          (redis (snd (run_fake hex_config (t0 + 10) (Some ∅) signed_post)))
          [{| call_time := t0 + 15; call_uuid1 := "fresh-uuid1";
              call_request := forged_post |}] in
  authenticated (snd (run_fake hex_config (t0 + 864000) used signed_post))
    = false /\
  redis (snd (run_fake hex_config (t0 + 864000) used signed_post)) = used.
Proof.
  exact (fake_redis_never_forgets hmac_digest get_timestamp (init hex_config)
           (Some ∅) (t0 + 10) "fresh-uuid1" signed_post id1
           [{| call_time := t0 + 15; call_uuid1 := "fresh-uuid1";
               call_request := forged_post |}]
           (t0 + 864000) "fresh-uuid1" signed_post
           ltac:(run_it) ltac:(run_it) ltac:(run_it) ltac:(run_it)).
Defined.

(** X18 at work: [TestGithubStyleMiddleware.test_authentic] without the
    signature prefix, and the request the signer makes over the
    identifier [id1], ten seconds after the identifier was made. *)
Lemma signed_test_request_authenticated_witness :
  authenticated (snd (run github_config (t0 + 10) None github_post)) = true /\
  authenticated (snd (run hex_config (t0 + 10) (Some ∅) signed_post)) = true.
Proof.
  split.
  - exact (signed_test_request_authenticated hmac_digest get_timestamp json_dumps
             (init github_config) (t0 + 10) "fresh-uuid1" (None : option TtlStore)
             "Example Data" None sha1 "hex" "Hub" github_post
             ltac:(unfold Conf.delivered, Conf.agree; split_and!; run_it)
             ltac:(unfold Conf.delivered, Conf.agree; split_and!; run_it)
             ltac:(intros rid Hrid; discriminate Hrid)).
  - assert (forall rid, Some id1 = Some rid ->
              exists (s : TtlStore) timestamp,
                Some (∅ : TtlStore) = Some s /\
                get_timestamp rid = Some timestamp /\
                has_valid_timestamp (init hex_config) (t0 + 10) timestamp = true /\
                redis_get s (t0 + 10) (redis_key (init hex_config) rid) = None)
      as Hid.
    { intros rid [= <-]. exists ∅, t0. split_and!; run_it. }
    exact (signed_test_request_authenticated hmac_digest get_timestamp json_dumps
             (init hex_config) (t0 + 10) "fresh-uuid1" (Some (∅ : TtlStore))
             "Example Data" (Some id1) sha256 "hex" "Auth" signed_post
             ltac:(unfold Conf.delivered, Conf.agree; split_and!; run_it)
             ltac:(unfold Conf.delivered, Conf.agree; split_and!; run_it) Hid).
Defined.

(** X19 at work: [TestGithubStyleMiddleware.test_authentic] as the test
    suite has it, with the prefix [sha1=]. *)
Lemma prefixed_test_request_refused_witness :
  let out := run github_config (t0 + 10) None github_prefixed_post in
  authenticated (snd out) = false /\
  (is_ascii "sha1=" = true ->
     fst out = Raise HTTPForbidden /\ req_is_authentic (snd out) = Some false).
Proof.
  exact (prefixed_test_request_refused hmac_digest get_timestamp json_dumps
           (init github_config) (t0 + 10) "fresh-uuid1" (None : option TtlStore)
           "Example Data" None sha1 "hex" "sha1=" "Hub" github_prefixed_post
           ltac:(unfold Conf.delivered, Conf.agree; split_and!; run_it)
           ltac:(unfold Conf.delivered, Conf.agree; split_and!; run_it)
           ltac:(run_it)).
Defined.


(** X21 at work: the signed request and the request dated a day ahead. *)
Lemma other_identifier_unaffected_witness :
  exists s',
    redis (snd (run hex_config (t0 + 10) (Some ∅) signed_post)) = Some s' /\
    fst (run hex_config (t0 + 20) (Some s') future_post)
      = fst (run hex_config (t0 + 20) (Some ∅) future_post) /\
    req_is_authentic (snd (run hex_config (t0 + 20) (Some s') future_post))
      = req_is_authentic (snd (run hex_config (t0 + 20) (Some ∅) future_post)).
Proof.
  pose proof (other_identifier_unaffected (H0:=TtlStore_laws) hmac_digest
                get_timestamp (init hex_config) (t0 + 10) "fresh-uuid1" ∅
                signed_post (t0 + 20) "fresh-uuid1" future_post) as Hw.
  apply Hw. intros rid H1 H2. vm_compute in H1, H2. congruence.
Defined.

End WorkedMore.
